(** * The Kopia backup service of incus-osd

    A shallow embedding of [incus-osd/internal/services/service_kopia.go]
    and of the API records of [incus-osd/api] it works on, followed by the
    properties of the backup and restore control logic.

    The Go methods of [*Kopia] become functions in a small state monad
    over a [Machine]: the [ServiceKopia] record held in [n.state] and the
    trace of everything the service asked of the outside world (external
    commands, ZFS and file-system helpers, the clock, the service and
    application registries, [state.Save]).  What the outside world
    answers is an [Env]: each answer may depend on the position of the
    call in the trace, so that any interleaving of successes and failures
    of the external tools can be chosen.  Logging through [slog] has no
    effect on the service and is left out. *)

From Stdlib Require Import String Ascii List ZArith Bool Lia.
From Stdlib Require Import Decimal DecimalString.
Import ListNotations.

Open Scope string_scope.
Open Scope Z_scope.

(* ================================================================== *)
(** ** Strings and time *)
(* ================================================================== *)

(** A Go [error]: [None] is [nil], [Some msg] an error whose [Error()]
    is [msg]. *)
Definition error := option string.

(** [fmt.Errorf(prefix + "%w", err)]. *)
Definition wrap (prefix : string) (msg : string) : string := prefix ++ msg.

(** [fmt.Sprintf("%d", n)] for a non-negative [n]. *)
Definition itoa (n : nat) : string := NilEmpty.string_of_uint (Nat.to_uint n).

(** [fmt.Sprintf("%d", z)] on a Go [int]. *)
Definition Sprintf_d (z : Z) : string :=
  if z <? 0 then "-" ++ itoa (Z.abs_nat z) else itoa (Z.abs_nat z).

Fixpoint zeros (n : nat) : string :=
  match n with
  | O => ""
  | S k => String "0" (zeros k)
  end.

(** A number on at least [w] digits, padded with zeros on the left. *)
Definition pad (w : nat) (n : nat) : string :=
  let s := itoa n in zeros (w - String.length s) ++ s.

(** A [time.Time], as the calendar fields its layouts print. *)
Record GoTime := mkTime {
  year : nat; month : nat; day : nat;
  hour : nat; minute : nat; second : nat;
  zone : string  (* "Z" or a numeric offset such as "+02:00" *)
}.

Definition zero_time : GoTime := mkTime 1 1 1 0 0 0 "Z".

(** [t.Format("20060102-150405")]. *)
Definition Format_compact (t : GoTime) : string :=
  pad 4 (year t) ++ pad 2 (month t) ++ pad 2 (day t) ++ "-" ++
  pad 2 (hour t) ++ pad 2 (minute t) ++ pad 2 (second t).

(** [t.Format(time.RFC3339)]. *)
Definition Format_RFC3339 (t : GoTime) : string :=
  pad 4 (year t) ++ "-" ++ pad 2 (month t) ++ "-" ++ pad 2 (day t) ++ "T" ++
  pad 2 (hour t) ++ ":" ++ pad 2 (minute t) ++ ":" ++ pad 2 (second t) ++ zone t.

(** [strings.Split(s, "@")]: the pieces of [s] between the '@' signs. *)
Fixpoint split_at (s : string) : list string :=
  match s with
  | EmptyString => [""]
  | String c rest =>
      if Ascii.eqb c "@" then "" :: split_at rest
      else match split_at rest with
           | [] => [String c ""]
           | p :: ps => String c p :: ps
           end
  end.

(** Number of '@' signs in a name. *)
Fixpoint count_at (s : string) : nat :=
  match s with
  | EmptyString => O
  | String c rest => ((if Ascii.eqb c "@" then 1 else 0) + count_at rest)%nat
  end.

(** A ZFS snapshot name is [dataset@snapname]: exactly one '@', with a
    non-empty name on each side of it. *)
Definition wellFormedSnapshotName (s : string) : bool :=
  match split_at s with
  | [ds; snap] => negb (String.eqb ds "") && negb (String.eqb snap "")
  | _ => false
  end.

(* ================================================================== *)
(** ** The API records ([incus-osd/api]) *)
(* ================================================================== *)

Record ServiceKopiaSnapshotInfo := {
  ID : string;
  Time : GoTime;
  Size : Z;
  Source : string;
  Description : string
}.

Record ServiceKopiaRetentionPolicy := {
  KeepLatest : Z;
  KeepHourly : Z;
  KeepDaily : Z;
  KeepWeekly : Z;
  KeepMonthly : Z;
  KeepAnnual : Z
}.

Record ServiceKopiaBackendS3 := {
  Endpoint : string;
  Bucket : string;
  AccessKey : string;
  SecretKey : string;
  Region : string
}.

(** [S3] is a pointer in Go: [None] is [nil]. *)
Record ServiceKopiaBackendConfig := {
  Type_ : string;
  S3 : option ServiceKopiaBackendS3
}.

Record ServiceKopiaConfig := {
  Enabled : bool;
  RepositoryPassword : string;
  Backend : ServiceKopiaBackendConfig;
  Retention : ServiceKopiaRetentionPolicy;
  BackupFrequency : string;
  RestoreSnapshotID : string
}.

(** [Progress] is a [float64] in Go; the service only ever stores the
    integer literals 0, 20, 25, ..., 100 in it, so it is a [Z] here. *)
Record ServiceKopiaState := {
  RepositoryConnected : bool;
  LastBackup : GoTime;
  LastBackupWindow : string;
  LastStatus : string;
  InProgress : bool;
  Progress : Z;
  AvailableSnapshots : list ServiceKopiaSnapshotInfo
}.

Record ServiceKopia := {
  State : ServiceKopiaState;
  Config : ServiceKopiaConfig
}.

(** The zero values Go gives a freshly created state. *)
Definition zero_retention : ServiceKopiaRetentionPolicy :=
  {| KeepLatest := 0; KeepHourly := 0; KeepDaily := 0;
     KeepWeekly := 0; KeepMonthly := 0; KeepAnnual := 0 |}.

Definition zero_config : ServiceKopiaConfig :=
  {| Enabled := false; RepositoryPassword := "";
     Backend := {| Type_ := ""; S3 := None |};
     Retention := zero_retention;
     BackupFrequency := ""; RestoreSnapshotID := "" |}.

Definition zero_state : ServiceKopiaState :=
  {| RepositoryConnected := false; LastBackup := zero_time;
     LastBackupWindow := ""; LastStatus := "";
     InProgress := false; Progress := 0; AvailableSnapshots := [] |}.

Definition zero_kopia : ServiceKopia :=
  {| State := zero_state; Config := zero_config |}.

(** Field assignments. *)
Definition set_RepositoryConnected (b : bool) (s : ServiceKopiaState) :=
  {| RepositoryConnected := b; LastBackup := LastBackup s;
     LastBackupWindow := LastBackupWindow s; LastStatus := LastStatus s;
     InProgress := InProgress s; Progress := Progress s;
     AvailableSnapshots := AvailableSnapshots s |}.

Definition set_LastBackup (t : GoTime) (s : ServiceKopiaState) :=
  {| RepositoryConnected := RepositoryConnected s; LastBackup := t;
     LastBackupWindow := LastBackupWindow s; LastStatus := LastStatus s;
     InProgress := InProgress s; Progress := Progress s;
     AvailableSnapshots := AvailableSnapshots s |}.

Definition set_LastStatus (msg : string) (s : ServiceKopiaState) :=
  {| RepositoryConnected := RepositoryConnected s; LastBackup := LastBackup s;
     LastBackupWindow := LastBackupWindow s; LastStatus := msg;
     InProgress := InProgress s; Progress := Progress s;
     AvailableSnapshots := AvailableSnapshots s |}.

Definition set_InProgress (b : bool) (s : ServiceKopiaState) :=
  {| RepositoryConnected := RepositoryConnected s; LastBackup := LastBackup s;
     LastBackupWindow := LastBackupWindow s; LastStatus := LastStatus s;
     InProgress := b; Progress := Progress s;
     AvailableSnapshots := AvailableSnapshots s |}.

Definition set_Progress (p : Z) (s : ServiceKopiaState) :=
  {| RepositoryConnected := RepositoryConnected s; LastBackup := LastBackup s;
     LastBackupWindow := LastBackupWindow s; LastStatus := LastStatus s;
     InProgress := InProgress s; Progress := p;
     AvailableSnapshots := AvailableSnapshots s |}.

Definition set_AvailableSnapshots (l : list ServiceKopiaSnapshotInfo)
    (s : ServiceKopiaState) :=
  {| RepositoryConnected := RepositoryConnected s; LastBackup := LastBackup s;
     LastBackupWindow := LastBackupWindow s; LastStatus := LastStatus s;
     InProgress := InProgress s; Progress := Progress s;
     AvailableSnapshots := l |}.

Definition set_RestoreSnapshotID (id : string) (c : ServiceKopiaConfig) :=
  {| Enabled := Enabled c; RepositoryPassword := RepositoryPassword c;
     Backend := Backend c; Retention := Retention c;
     BackupFrequency := BackupFrequency c; RestoreSnapshotID := id |}.

(** What [Update] is handed: [req any] is either a [*api.ServiceKopia] or
    a value of some other type, named by its [%T]. *)
Inductive Request :=
| ReqServiceKopia (newState : ServiceKopia)
| ReqOther (typeName : string).

(* ================================================================== *)
(** ** The outside world *)
(* ================================================================== *)

(** Modelled from the spec: the maintenance-window type
    ([n.state.System.Update.Config.MaintenanceWindows]) is declared outside
    the service's source.  The spec identifies a window by an
    externally-assigned identifier; whether it is active is asked of the
    window itself ([window.IsCurrentlyActive()]). *)
Record MaintenanceWindow := { WindowID : string }.

(** One element of the JSON array printed by [kopia snapshot list --json],
    as [refreshSnapshots] declares it. *)
Record kopiaSnapshotJSON := {
  json_id : string;
  json_source_path : string;
  json_startTime : GoTime;
  json_description : string;
  json_stats_totalSize : Z
}.

(** Everything the service asks of its environment, in the order asked. *)
Inductive Event :=
| RunCommand (name : string) (args : list string)
| PoolExists (pool : string)
| DatasetExists (dataset : string)
| CreateDataset (pool name : string) (properties : list (string * string))
| Setenv (key value : string)
| Stat (path : string)
| MkdirAll (path : string)
| RemoveAll (path : string)
| Now
| IsActive (w : MaintenanceWindow)
| AppLoad (name : string)
| AppStop (name version : string)
| AppStart (name version : string)
| SrvLoad (name : string)
| SrvShouldStart (name : string)
| SrvStop (name : string)
| SrvStart (name : string)
| Save (k : ServiceKopia)
| SetProgress (p : Z).   (* an assignment to [State.Progress] *)

(** The answers of the environment.  The [nat] is the number of events
    before the call: the same request may be answered differently at
    different moments.  The last fields are the parts of [n.state] outside
    the Kopia record, which the service only reads, and the pure library
    functions it calls. *)
Record Env := {
  subprocess_RunCommandContext : nat -> string -> list string -> string * error;
  storage_PoolExists : nat -> string -> bool;
  storage_DatasetExists : nat -> string -> bool;
  zfs_CreateDataset : nat -> string -> string -> list (string * string) -> error;
  os_Stat : nat -> string -> error;
  os_MkdirAll : nat -> string -> error;
  time_Now : nat -> GoTime;
  IsCurrentlyActive : nat -> MaintenanceWindow -> bool;
  applications_Load : nat -> string -> error;
  app_Stop : nat -> string -> string -> error;
  app_Start : nat -> string -> string -> error;
  services_Load : nat -> string -> error;
  srv_ShouldStart : nat -> string -> bool;
  srv_Stop : nat -> string -> error;
  srv_Start : nat -> string -> error;
  (* n.state.System.Update.Config.MaintenanceWindows *)
  MaintenanceWindows : list MaintenanceWindow;
  (* n.state.Applications, in the order the range loop visits it, each
     application with its State.Version *)
  Applications : list (string * string);
  (* Supported(n.state): the services of the system, in startup order *)
  Supported : list string;
  filepath_Join : list string -> string;
  strings_TrimSpace : string -> string;
  json_Unmarshal : string -> list kopiaSnapshotJSON * error
}.

(** The service's view of the system: its own record inside [n.state] and
    the trace of what it did so far. *)
Record Machine := {
  kopia : ServiceKopia;
  trace : list Event
}.

(* ================================================================== *)
(** ** The monad of service code *)
(* ================================================================== *)

Definition M (A : Type) : Type := Machine -> A * Machine.

Definition ret {A} (a : A) : M A := fun m => (a, m).

Definition bind {A B} (c : M A) (f : A -> M B) : M B :=
  fun m => let (a, m') := c m in f a m'.

Declare Scope go_scope.
Delimit Scope go_scope with go.
Notation "x <- c ;; k" := (bind c (fun x => k))
  (at level 100, c at next level, right associativity) : go_scope.
Notation "c ;; k" := (bind c (fun _ => k))
  (at level 100, right associativity) : go_scope.
Notation "' ( x , y ) <- c ;; k" := (bind c (fun p => let '(x, y) := p in k))
  (at level 100, c at next level, x name, y name, right associativity) : go_scope.
Open Scope go_scope.

(** A call to the outside: the event is appended, the answer is the one
    the environment gives at this point of the trace. *)
Definition call {R} (e : Event) (answer : nat -> R) : M R :=
  fun m => (answer (length (trace m)),
            {| kopia := kopia m; trace := trace m ++ [e] |}).

(** Reading [n.state.Services.Kopia]. *)
Definition get_kopia : M ServiceKopia := fun m => (kopia m, m).

(** An assignment to a field of [n.state.Services.Kopia.State]. *)
Definition assign_State (f : ServiceKopiaState -> ServiceKopiaState) : M unit :=
  fun m => (tt, {| kopia := {| State := f (State (kopia m));
                               Config := Config (kopia m) |};
                   trace := trace m |}).

(** [n.state.Services.Kopia.State.Progress = p]; the write is also noted in
    the trace, so that the values taken during a cycle can be spoken of. *)
Definition assign_Progress (p : Z) : M unit :=
  fun m => (tt, {| kopia := {| State := set_Progress p (State (kopia m));
                               Config := Config (kopia m) |};
                   trace := trace m ++ [SetProgress p] |}).

(** [n.state.Services.Kopia.Config = c]. *)
Definition assign_Config (c : ServiceKopiaConfig) : M unit :=
  fun m => (tt, {| kopia := {| State := State (kopia m); Config := c |};
                   trace := trace m |}).

(* ================================================================== *)
(** ** service_kopia.go *)
(* ================================================================== *)

Section Service.

Variable env : Env.

Definition kopiaCacheDir : string := "/var/lib/incus-os/kopia".

(** [subprocess.RunCommandContext(ctx, name, args...)]. *)
Definition RunCommandContext (name : string) (args : list string)
  : M (string * error) :=
  call (RunCommand name args)
       (fun i => subprocess_RunCommandContext env i name args).

(** What a nil [*api.ServiceKopiaBackendS3] stands for when it is
    dereferenced: Go panics.  [configure] validates the backend before it
    connects, so the service never gets there (see
    [validated_backend_has_S3]). *)
Definition nil_dereference : string :=
  "panic: runtime error: invalid memory address or nil pointer dereference".

(** [Stop]. *)
Definition Stop : M error :=
  k <- get_kopia;;
  if negb (Enabled (Config k)) then ret None
  else
    assign_State (set_InProgress false);;
    assign_Progress 0;;
    ret None.

(** [validateBackendConfig]. *)
Definition validateBackendConfig (backend : ServiceKopiaBackendConfig) : error :=
  if String.eqb (Type_ backend) "s3" then
    match S3 backend with
    | None => Some "S3 backend configuration missing"
    | Some s3 =>
        if String.eqb (Endpoint s3) "" || String.eqb (Bucket s3) "" ||
           String.eqb (AccessKey s3) "" || String.eqb (SecretKey s3) ""
        then Some "S3 configuration incomplete"
        else None
    end
  else Some ("unsupported backend type: " ++ Type_ backend).

(** [ensureKopiaCacheDataset]. *)
Definition ensureKopiaCacheDataset : M error :=
  let datasetName := "local/kopia-cache" in
  let mountpoint := kopiaCacheDir in
  found <- call (DatasetExists datasetName)
                (fun i => storage_DatasetExists env i datasetName);;
  if (found : bool) then ret None
  else
    let properties := [("mountpoint", mountpoint); ("canmount", "on")] in
    err <- call (CreateDataset "local" "kopia-cache" properties)
                (fun i => zfs_CreateDataset env i "local" "kopia-cache" properties);;
    match err with
    | Some e => ret (Some (wrap "failed to create Kopia cache dataset: " e))
    | None => ret None
    end.

(** [initS3Repository]. *)
Definition initS3Repository (s3Config : option ServiceKopiaBackendS3) : M error :=
  k <- get_kopia;;
  let config := Config k in
  if String.eqb (RepositoryPassword config) "" then
    ret (Some "repository_password is required for repository initialization")
  else
    match s3Config with
    | None => ret (Some nil_dereference)
    | Some s3 =>
        let args :=
          ["repository"; "create"; "s3";
           "--bucket"; Bucket s3;
           "--endpoint"; Endpoint s3;
           "--disable-tls";
           "--access-key"; AccessKey s3;
           "--secret-access-key"; SecretKey s3;
           "--password"; RepositoryPassword config] in
        let args :=
          if negb (String.eqb (Region s3) "")
          then (args ++ ["--region"; Region s3])%list else args in
        '(_, err) <- RunCommandContext "kopia" args;;
        match err with
        | Some e => ret (Some (wrap "failed to create repository: " e))
        | None => ret None
        end
    end.

(** [initRepository]. *)
Definition initRepository (backend : ServiceKopiaBackendConfig) : M error :=
  if String.eqb (Type_ backend) "s3" then initS3Repository (S3 backend)
  else ret (Some ("unsupported backend type for init: " ++ Type_ backend)).

(** [connectS3Repository]. *)
Definition connectS3Repository (s3Config : option ServiceKopiaBackendS3) : M error :=
  k <- get_kopia;;
  let config := Config k in
  if String.eqb (RepositoryPassword config) "" then
    ret (Some "repository_password is required for repository connection")
  else
    match s3Config with
    | None => ret (Some nil_dereference)
    | Some s3 =>
        let args :=
          ["repository"; "connect"; "s3";
           "--bucket"; Bucket s3;
           "--endpoint"; Endpoint s3;
           "--disable-tls";
           "--access-key"; AccessKey s3;
           "--secret-access-key"; SecretKey s3;
           "--password"; RepositoryPassword config] in
        let args :=
          if negb (String.eqb (Region s3) "")
          then (args ++ ["--region"; Region s3])%list else args in
        '(_, err) <- RunCommandContext "kopia" args;;
        match err with
        | Some e => ret (Some (wrap "failed to connect repository: " e))
        | None => ret None
        end
    end.

(** [connectRepository]. *)
Definition connectRepository (backend : ServiceKopiaBackendConfig) : M error :=
  if String.eqb (Type_ backend) "s3" then connectS3Repository (S3 backend)
  else ret (Some ("unsupported backend type for connect: " ++ Type_ backend)).

(** [connectOrInitRepository]. *)
Definition connectOrInitRepository (backend : ServiceKopiaBackendConfig) : M error :=
  err <- connectRepository backend;;
  match err with
  | None => ret None
  | Some _ => initRepository backend
  end.

(** [configure]. *)
Definition configure : M error :=
  k <- get_kopia;;
  let config := Config k in
  match validateBackendConfig (Backend config) with
  | Some e =>
      assign_State (set_RepositoryConnected false);;
      assign_State (set_LastStatus ("Backend configuration invalid: " ++ e));;
      ret (Some e)
  | None =>
      err <- ensureKopiaCacheDataset;;
      match err with
      | Some e => ret (Some (wrap "failed to ensure Kopia cache dataset: " e))
      | None =>
          call (Setenv "KOPIA_CACHE_DIRECTORY" kopiaCacheDir) (fun _ => tt);;
          err <- connectOrInitRepository (Backend config);;
          match err with
          | Some e =>
              assign_State (set_RepositoryConnected false);;
              assign_State
                (set_LastStatus ("Failed to connect or initialize repository: " ++ e));;
              ret (Some e)
          | None =>
              assign_State (set_RepositoryConnected true);;
              assign_State (set_LastStatus "Repository connected");;
              ret None
          end
      end
  end.

(** [Start]. *)
Definition Start : M error :=
  k <- get_kopia;;
  if negb (Enabled (Config k)) then ret None else configure.

(** [ShouldStart]. *)
Definition ShouldStart : M bool :=
  k <- get_kopia;; ret (Enabled (Config k)).

(** [refreshSnapshots]. *)
Definition refreshSnapshots : M error :=
  '(output, err) <- RunCommandContext "kopia" ["snapshot"; "list"; "--json"];;
  match err with
  | Some e => ret (Some (wrap "failed to list snapshots: " e))
  | None =>
      let '(snapshots, err) := json_Unmarshal env output in
      match err with
      | Some e => ret (Some (wrap "failed to parse snapshot list: " e))
      | None =>
          let apiSnapshots :=
            map (fun snap => {| ID := json_id snap;
                                Time := json_startTime snap;
                                Size := json_stats_totalSize snap;
                                Source := json_source_path snap;
                                Description := json_description snap |})
                snapshots in
          assign_State (set_AvailableSnapshots apiSnapshots);;
          ret None
      end
  end.

(** [Get]: the state returned is the one of the machine afterwards. *)
Definition Get : M (ServiceKopia * error) :=
  k <- get_kopia;;
  (if Enabled (Config k) && RepositoryConnected (State k)
   then refreshSnapshots;; ret tt
   else ret tt);;
  k' <- get_kopia;;
  ret (k', None).

(** [findLocalPool]. *)
Definition findLocalPool : M (string * error) :=
  found <- call (PoolExists "local") (fun i => storage_PoolExists env i "local");;
  if negb found then ret ("", Some "local ZFS pool not found")
  else ret ("local", None).

(** [getPoolMountpoint]. *)
Definition getPoolMountpoint (poolName : string) : M (string * error) :=
  '(output, err) <-
     RunCommandContext "zfs" ["get"; "-H"; "-o"; "value"; "mountpoint"; poolName];;
  match err with
  | Some e => ret ("", Some (wrap "failed to get mountpoint: " e))
  | None =>
      let mountpoint := strings_TrimSpace env output in
      if String.eqb mountpoint "none" || String.eqb mountpoint "legacy"
      then ret (filepath_Join env ["/"; poolName], None)
      else ret (mountpoint, None)
  end.

(** [createZFSSnapshot]. *)
Definition createZFSSnapshot (poolName : string) : M (string * error) :=
  now <- call Now (time_Now env);;
  let snapshotName := poolName ++ "@kopia-" ++ Format_compact now in
  '(_, err) <- RunCommandContext "zfs" ["snapshot"; snapshotName];;
  match err with
  | Some e => ret ("", Some (wrap "failed to create ZFS snapshot: " e))
  | None => ret (snapshotName, None)
  end.

(** [destroyZFSSnapshot]. *)
Definition destroyZFSSnapshot (snapshotName : string) : M error :=
  '(_, err) <- RunCommandContext "zfs" ["destroy"; snapshotName];;
  match err with
  | Some e => ret (Some (wrap "failed to destroy ZFS snapshot: " e))
  | None => ret None
  end.

(** [getSnapshotPath].  Indexing the result of [strings.Split] past its
    end panics in Go; the names passed here come from [createZFSSnapshot]
    and always hold an '@', so both pieces exist. *)
Definition getSnapshotPath (snapshotName : string) : M (string * error) :=
  let poolName := nth 0 (split_at snapshotName) "" in
  '(mountpoint, err) <- getPoolMountpoint poolName;;
  match err with
  | Some e => ret ("", Some e)
  | None =>
      let snapshotPath :=
        filepath_Join env
          [mountpoint; ".zfs"; "snapshot"; nth 1 (split_at snapshotName) ""] in
      err <- call (Stat snapshotPath) (fun i => os_Stat env i snapshotPath);;
      match err with
      | Some e => ret ("", Some (wrap "snapshot path does not exist: " e))
      | None => ret (snapshotPath, None)
      end
  end.

(** The loop of [isInMaintenanceWindow]. *)
Fixpoint anyWindowActive (windows : list MaintenanceWindow) : M bool :=
  match windows with
  | [] => ret false
  | window :: rest =>
      active <- call (IsActive window) (fun i => IsCurrentlyActive env i window);;
      if (active : bool) then ret true else anyWindowActive rest
  end.

(** [isInMaintenanceWindow]. *)
Definition isInMaintenanceWindow : M bool :=
  if (length (MaintenanceWindows env) =? 0)%nat then ret true
  else anyWindowActive (MaintenanceWindows env).

(** The arguments [applyRetention] builds for [kopia] (lines 560 to 585):
    one flag for each count that is set. *)
Definition retentionArgs (config : ServiceKopiaConfig) : list string :=
  let args := ["snapshot"; "expire"] in
  let args := if 0 <? KeepLatest (Retention config)
    then (args ++ ["--keep-latest"; Sprintf_d (KeepLatest (Retention config))])%list
    else args in
  let args := if 0 <? KeepHourly (Retention config)
    then (args ++ ["--keep-hourly"; Sprintf_d (KeepHourly (Retention config))])%list
    else args in
  let args := if 0 <? KeepDaily (Retention config)
    then (args ++ ["--keep-daily"; Sprintf_d (KeepDaily (Retention config))])%list
    else args in
  let args := if 0 <? KeepWeekly (Retention config)
    then (args ++ ["--keep-weekly"; Sprintf_d (KeepWeekly (Retention config))])%list
    else args in
  let args := if 0 <? KeepMonthly (Retention config)
    then (args ++ ["--keep-monthly"; Sprintf_d (KeepMonthly (Retention config))])%list
    else args in
  let args := if 0 <? KeepAnnual (Retention config)
    then (args ++ ["--keep-annual"; Sprintf_d (KeepAnnual (Retention config))])%list
    else args in
  args.

(** [applyRetention]. *)
Definition applyRetention : M error :=
  k <- get_kopia;;
  let config := Config k in
  let args := retentionArgs config in
  if (length args =? 2)%nat then ret None
  else
    '(_, err) <- RunCommandContext "kopia" args;;
    match err with
    | Some e => ret (Some (wrap "failed to apply retention policy: " e))
    | None => ret None
    end.

(** The part of [performBackup] that runs once the cleanup of the ZFS
    snapshot has been deferred.  It yields the value returned and the
    value the variable [err] holds at that moment, which is what the
    deferred function tests. *)
Definition performBackup_deferred (poolName snapshotName : string)
  : M (error * error) :=
  '(snapshotPath, err) <- getSnapshotPath snapshotName;;
  match err with
  | Some e =>
      assign_State (set_InProgress false);;
      assign_State (set_LastStatus ("Failed to get snapshot path: " ++ e));;
      ret (Some e, Some e)
  | None =>
      assign_Progress 25;;
      assign_State (set_LastStatus "Creating Kopia snapshot");;
      now <- call Now (time_Now env);;
      let description :=
        "Backup of " ++ poolName ++ " pool at " ++ Format_RFC3339 now in
      let args := ["snapshot"; "create"; snapshotPath;
                   "--description"; description] in
      '(_, err) <- RunCommandContext "kopia" args;;
      match err with
      | Some e =>
          assign_State (set_InProgress false);;
          assign_State (set_LastStatus ("Failed to create Kopia snapshot: " ++ e));;
          ret (Some e, Some e)
      | None =>
          assign_Progress 75;;
          assign_State (set_LastStatus "Applying retention policies");;
          (* a failure of the retention step is only logged *)
          _ <- applyRetention;;
          assign_Progress 90;;
          assign_State (set_LastStatus "Cleaning up ZFS snapshot");;
          (* so is a failure to destroy the snapshot, but [err] keeps it *)
          err <- destroyZFSSnapshot snapshotName;;
          assign_State (set_InProgress false);;
          assign_Progress 100;;
          now <- call Now (time_Now env);;
          assign_State (set_LastBackup now);;
          assign_State (set_LastStatus "Backup completed successfully");;
          ret (None, err)
      end
  end.

(** [performBackup]. *)
Definition performBackup : M error :=
  k <- get_kopia;;
  if negb (RepositoryConnected (State k)) then
    ret (Some "repository not connected")
  else
    inWindow <- isInMaintenanceWindow;;
    if negb inWindow then
      assign_State (set_LastStatus "Outside maintenance window");;
      ret (Some "outside maintenance window")
    else
      '(poolName, err) <- findLocalPool;;
      match err with
      | Some e =>
          assign_State (set_LastStatus ("Failed to find local pool: " ++ e));;
          ret (Some e)
      | None =>
          assign_State (set_InProgress true);;
          assign_Progress 0;;
          assign_State (set_LastStatus "Creating ZFS snapshot");;
          '(snapshotName, err) <- createZFSSnapshot poolName;;
          match err with
          | Some e =>
              assign_State (set_InProgress false);;
              assign_State (set_LastStatus ("Failed to create snapshot: " ++ e));;
              ret (Some e)
          | None =>
              '(result, err) <- performBackup_deferred poolName snapshotName;;
              (* the deferred function: cleanup of the snapshot on error *)
              match err with
              | Some _ => _ <- destroyZFSSnapshot snapshotName;; ret result
              | None => ret result
              end
          end
      end.

(** [restoreSnapshot]. *)
Definition restoreSnapshot (snapshotID targetPath : string) : M error :=
  let args := ["snapshot"; "restore"; snapshotID; targetPath] in
  '(_, err) <- RunCommandContext "kopia" args;;
  match err with
  | Some e => ret (Some (wrap "failed to restore snapshot: " e))
  | None => ret None
  end.

(** [applyRestoredData]. *)
Definition applyRestoredData (tempPath mountpoint : string) : M error :=
  let args := ["-a"; "--delete"; tempPath ++ "/"; mountpoint ++ "/"] in
  '(_, err) <- RunCommandContext "rsync" args;;
  match err with
  | Some e => ret (Some (wrap "failed to apply restored data: " e))
  | None => ret None
  end.

(** The four loops of [PerformRestore] over the applications and the
    services.  Whatever fails in them is logged and the loop goes on. *)
Fixpoint stopApplications (apps : list (string * string)) : M unit :=
  match apps with
  | [] => ret tt
  | (appName, version) :: rest =>
      err <- call (AppLoad appName) (fun i => applications_Load env i appName);;
      match err with
      | Some _ => stopApplications rest
      | None =>
          _ <- call (AppStop appName version)
                    (fun i => app_Stop env i appName version);;
          stopApplications rest
      end
  end.

Fixpoint stopServices (serviceNames : list string) : M unit :=
  match serviceNames with
  | [] => ret tt
  | srvName :: rest =>
      if String.eqb srvName "kopia" then stopServices rest
      else
        err <- call (SrvLoad srvName) (fun i => services_Load env i srvName);;
        match err with
        | Some _ => stopServices rest
        | None =>
            should <- call (SrvShouldStart srvName)
                           (fun i => srv_ShouldStart env i srvName);;
            if negb should then stopServices rest
            else
              _ <- call (SrvStop srvName) (fun i => srv_Stop env i srvName);;
              stopServices rest
        end
  end.

Fixpoint startServices (serviceNames : list string) : M unit :=
  match serviceNames with
  | [] => ret tt
  | srvName :: rest =>
      if String.eqb srvName "kopia" then startServices rest
      else
        err <- call (SrvLoad srvName) (fun i => services_Load env i srvName);;
        match err with
        | Some _ => startServices rest
        | None =>
            should <- call (SrvShouldStart srvName)
                           (fun i => srv_ShouldStart env i srvName);;
            if negb should then startServices rest
            else
              _ <- call (SrvStart srvName) (fun i => srv_Start env i srvName);;
              startServices rest
        end
  end.

Fixpoint startApplications (apps : list (string * string)) : M unit :=
  match apps with
  | [] => ret tt
  | (appName, version) :: rest =>
      err <- call (AppLoad appName) (fun i => applications_Load env i appName);;
      match err with
      | Some _ => startApplications rest
      | None =>
          _ <- call (AppStart appName version)
                    (fun i => app_Start env i appName version);;
          startApplications rest
      end
  end.

(** The part of [PerformRestore] that runs once the removal of the
    staging directory has been deferred. *)
Definition PerformRestore_deferred
    (snapshotID tempRestorePath mountpoint : string) : M error :=
  assign_Progress 50;;
  assign_State (set_LastStatus "Restoring snapshot");;
  err <- restoreSnapshot snapshotID tempRestorePath;;
  match err with
  | Some e =>
      assign_State (set_InProgress false);;
      assign_State (set_LastStatus ("Failed to restore snapshot: " ++ e));;
      ret (Some e)
  | None =>
      assign_Progress 70;;
      assign_State (set_LastStatus "Applying restored data");;
      err <- applyRestoredData tempRestorePath mountpoint;;
      match err with
      | Some e =>
          assign_State (set_InProgress false);;
          assign_State (set_LastStatus ("Failed to apply restored data: " ++ e));;
          ret (Some e)
      | None =>
          assign_Progress 80;;
          assign_State (set_LastStatus "Starting services");;
          startServices (Supported env);;
          startApplications (Applications env);;
          assign_State (set_InProgress false);;
          assign_Progress 100;;
          assign_State (set_LastStatus "Restore completed successfully");;
          ret None
      end
  end.

(** [PerformRestore]. *)
Definition PerformRestore (snapshotID : string) : M error :=
  k <- get_kopia;;
  if negb (RepositoryConnected (State k)) then
    ret (Some "repository not connected")
  else
    '(poolName, err) <- findLocalPool;;
    match err with
    | Some e => ret (Some e)
    | None =>
        assign_State (set_InProgress true);;
        assign_Progress 0;;
        assign_State (set_LastStatus "Stopping services");;
        stopApplications (Applications env);;
        stopServices (List.rev (Supported env));;
        assign_Progress 20;;
        assign_State (set_LastStatus "Creating safety snapshot");;
        now <- call Now (time_Now env);;
        let safetySnapshotName :=
          poolName ++ "@before-restore-" ++ Format_compact now in
        '(_, err) <- createZFSSnapshot safetySnapshotName;;
        match err with
        | Some e =>
            assign_State (set_InProgress false);;
            assign_State (set_LastStatus ("Failed to create safety snapshot: " ++ e));;
            ret (Some (wrap "failed to create safety snapshot: " e))
        | None =>
            assign_Progress 30;;
            assign_State (set_LastStatus "Preparing restore location");;
            '(mountpoint, err) <- getPoolMountpoint poolName;;
            match err with
            | Some e =>
                assign_State (set_InProgress false);;
                assign_State (set_LastStatus ("Failed to get pool mountpoint: " ++ e));;
                ret (Some e)
            | None =>
                assign_Progress 40;;
                assign_State (set_LastStatus "Clearing existing data");;
                let tempRestorePath :=
                  filepath_Join env [mountpoint; ".kopia-restore-temp"] in
                err <- call (MkdirAll tempRestorePath)
                            (fun i => os_MkdirAll env i tempRestorePath);;
                match err with
                | Some e =>
                    assign_State (set_InProgress false);;
                    assign_State
                      (set_LastStatus ("Failed to create temp restore path: " ++ e));;
                    ret (Some e)
                | None =>
                    result <-
                      PerformRestore_deferred snapshotID tempRestorePath mountpoint;;
                    (* the deferred function: the staging directory goes *)
                    call (RemoveAll tempRestorePath) (fun _ => tt);;
                    ret result
                end
            end
        end
    end.

(** Lines 82 to 101 of [Update]: the incoming configuration is stored,
    the service is started if it has just been enabled and configured if
    it is enabled. *)
Definition Update_apply (oldState : ServiceKopia) (newConfig : ServiceKopiaConfig)
  : M error :=
  assign_Config newConfig;;
  err <- (if negb (Enabled (Config oldState)) && Enabled newConfig
          then Start else ret None);;
  match err with
  | Some e => ret (Some e)
  | None =>
      k <- get_kopia;;
      if Enabled (Config k) then configure else ret None
  end.

Definition dquote : string := String "034"%char "".

(** [Update], with the restore it may trigger as a parameter: the service's
    own is [PerformRestore], see [Update] below.  [n.state.Save()] is
    deferred once the request has the expected type; what it is handed is
    the record as it is when [Update] returns. *)
Definition UpdateWith (restore : string -> M error) (req : Request) : M error :=
  match req with
  | ReqOther typeName =>
      ret (Some ("request type " ++ dquote ++ typeName ++ dquote ++
                 " isn't expected ServiceKopia"))
  | ReqServiceKopia newState =>
      oldState <- get_kopia;;
      result <-
        (err <- (if Enabled (Config oldState) && negb (Enabled (Config newState))
                 then Stop else ret None);;
         match err with
         | Some e => ret (Some e)
         | None =>
             if negb (String.eqb (RestoreSnapshotID (Config newState)) "") &&
                negb (String.eqb (RestoreSnapshotID (Config newState))
                                 (RestoreSnapshotID (Config oldState)))
             then
               err <- restore (RestoreSnapshotID (Config newState));;
               match err with
               | Some e => ret (Some e)
               | None =>
                   Update_apply oldState
                     (set_RestoreSnapshotID "" (Config newState))
               end
             else Update_apply oldState (Config newState)
         end);;
      saved <- get_kopia;;
      call (Save saved) (fun _ => tt);;
      ret result
  end.

(** [Update]. *)
Definition Update (req : Request) : M error := UpdateWith PerformRestore req.

End Service.

(* ================================================================== *)
(** ** Reading traces *)
(* ================================================================== *)

(** The events a run added to the trace. *)
Definition since (m m' : Machine) : list Event :=
  skipn (length (trace m)) (trace m').

(** The external commands among some events. *)
Fixpoint commands (evs : list Event) : list (string * list string) :=
  match evs with
  | [] => []
  | RunCommand name args :: rest => (name, args) :: commands rest
  | _ :: rest => commands rest
  end.

(** The values written to [Progress], in order. *)
Fixpoint progress_writes (evs : list Event) : list Z :=
  match evs with
  | [] => []
  | SetProgress p :: rest => p :: progress_writes rest
  | _ :: rest => progress_writes rest
  end.

(** The names handed to [zfs snapshot]. *)
Fixpoint snapshots_requested (cmds : list (string * list string)) : list string :=
  match cmds with
  | [] => []
  | (name, args) :: rest =>
      match args with
      | [verb; snap] =>
          if String.eqb name "zfs" && String.eqb verb "snapshot"
          then snap :: snapshots_requested rest
          else snapshots_requested rest
      | _ => snapshots_requested rest
      end
  end.

(** Events of the registries and of the maintenance windows: what the
    loops of the service produce. *)
Definition registry (e : Event) : bool :=
  match e with
  | IsActive _ | AppLoad _ | AppStop _ _ | AppStart _ _
  | SrvLoad _ | SrvShouldStart _ | SrvStop _ | SrvStart _ => true
  | _ => false
  end.

(** Stopping an application or a service. *)
Definition stops (e : Event) : bool :=
  match e with
  | AppStop _ _ | SrvStop _ => true
  | _ => false
  end.

Fixpoint nondecreasing (l : list Z) : bool :=
  match l with
  | [] => true
  | x :: rest =>
      match rest with
      | [] => true
      | y :: _ => (x <=? y) && nondecreasing rest
      end
  end.

(** A machine with its [InProgress] flag forced to [b]. *)
Definition with_InProgress (b : bool) (m : Machine) : Machine :=
  {| kopia := {| State := set_InProgress b (State (kopia m));
                 Config := Config (kopia m) |};
     trace := trace m |}.

(** The name [PerformRestore] builds for the safety snapshot, and the one
    [createZFSSnapshot] makes of it. *)
Definition safety_name (t : GoTime) : string :=
  "local" ++ "@before-restore-" ++ Format_compact t.

Definition requested_name (t1 t2 : GoTime) : string :=
  safety_name t1 ++ "@kopia-" ++ Format_compact t2.

(** A computation that leaves the Kopia record alone and adds only
    registry events to the trace. *)
Definition registry_only {A} (c : M A) : Prop :=
  forall m, exists a evs,
    c m = (a, {| kopia := kopia m; trace := trace m ++ evs |}) /\
    forallb registry evs = true.

(** A computation is blind to the flag when, run from a state with the
    flag forced, it returns what it returns from the state itself, and
    ends either in the very same state (it has overwritten the flag) or in
    that state with the flag forced (it has not touched it). *)
Definition flag_blind {A} (c : M A) : Prop :=
  forall b m,
    fst (c (with_InProgress b m)) = fst (c m) /\
    (snd (c (with_InProgress b m)) = snd (c m) \/
     snd (c (with_InProgress b m)) = with_InProgress b (snd (c m))).

(** The machine on which [Update] calls the restore: the service has been
    stopped if the request disables it (lines 62 to 68). *)
Definition restore_entry (newState : ServiceKopia) (m : Machine) : Machine :=
  snd ((if Enabled (Config (kopia m)) && negb (Enabled (Config newState))
        then Stop else ret None) m).

(** The trigger of line 71. *)
Definition triggers_restore (newState : ServiceKopia) (m : Machine) : bool :=
  negb (String.eqb (RestoreSnapshotID (Config newState)) "") &&
  negb (String.eqb (RestoreSnapshotID (Config newState))
                   (RestoreSnapshotID (Config (kopia m)))).

(** The progress values a machine at rest can show. *)
Definition checkpoints : list Z := [0; 20; 25; 30; 40; 50; 70; 100].

(** The service at rest: no cycle is marked as running and the progress
    is one of the checkpoints at which a cycle ends or is abandoned. *)
Definition at_rest (k : ServiceKopia) : Prop :=
  InProgress (State k) = false /\ In (Progress (State k)) checkpoints.

(** The operations the daemon performs on the service, one at a time:
    configuration updates, status reads, starts and stops, and backup
    runs. *)
Inductive Operation :=
| OpUpdate (req : Request)
| OpGet
| OpStart
| OpStop
| OpBackup.

Definition run (env : Env) (op : Operation) (m : Machine) : Machine :=
  match op with
  | OpUpdate req => snd (Update env req m)
  | OpGet => snd (Get env m)
  | OpStart => snd (Start env m)
  | OpStop => snd (Stop m)
  | OpBackup => snd (performBackup env m)
  end.

(** The machines the service can be in between two operations, from a
    freshly created state. *)
Inductive reachable (env : Env) : Machine -> Prop :=
| reachable_boot : reachable env {| kopia := zero_kopia; trace := [] |}
| reachable_step : forall m op,
    reachable env m -> reachable env (run env op m).

(* ================================================================== *)
(** ** A concrete system to run the service on *)
(* ================================================================== *)

Module Sample.

(** A [filepath.Join] for clean paths: the non-empty elements, separated
    by one slash. *)
Fixpoint ends_with_slash (s : string) : bool :=
  match s with
  | EmptyString => false
  | String c EmptyString => Ascii.eqb c "/"
  | String _ rest => ends_with_slash rest
  end.

Fixpoint join_from (acc : string) (parts : list string) : string :=
  match parts with
  | [] => acc
  | p :: rest =>
      if String.eqb p "" then join_from acc rest
      else if String.eqb acc "" then join_from p rest
      else if ends_with_slash acc then join_from (acc ++ p) rest
      else join_from (acc ++ "/" ++ p) rest
  end.

Definition Join (parts : list string) : string := join_from "" parts.

Definition is_space (c : ascii) : bool :=
  match nat_of_ascii c with
  | 9%nat | 10%nat | 11%nat | 12%nat | 13%nat | 32%nat => true
  | _ => false
  end.

Fixpoint trim_left (s : string) : string :=
  match s with
  | String c rest => if is_space c then trim_left rest else s
  | EmptyString => EmptyString
  end.

Fixpoint trim_right (s : string) : string :=
  match s with
  | EmptyString => EmptyString
  | String c rest =>
      match trim_right rest with
      | EmptyString => if is_space c then EmptyString else String c EmptyString
      | r => String c r
      end
  end.

Definition TrimSpace (s : string) : string := trim_right (trim_left s).

Definition clock : GoTime := mkTime 2024 1 15 10 30 0 "Z".

(** What the tools print when they succeed. *)
Definition output_of (name : string) (args : list string) : string :=
  if String.eqb name "zfs" then
    match args with
    | "get" :: _ => String "/" "local" ++ String "010"%char ""
    | _ => ""
    end
  else "".

(** A system in which the commands for which [fails] holds fail and
    everything else succeeds: the pool [local] is there, the clock stands
    at [clock], three services and one application are installed. *)
Definition world (fails : nat -> string -> list string -> bool)
    (windows : list MaintenanceWindow) (active : bool) : Env :=
  {| subprocess_RunCommandContext := fun i name args =>
       if fails i name args then ("", Some "exit status 1")
       else (output_of name args, None);
     storage_PoolExists := fun _ pool => String.eqb pool "local";
     storage_DatasetExists := fun _ _ => true;
     zfs_CreateDataset := fun _ _ _ _ => None;
     os_Stat := fun _ _ => None;
     os_MkdirAll := fun _ _ => None;
     time_Now := fun _ => clock;
     IsCurrentlyActive := fun _ _ => active;
     applications_Load := fun _ _ => None;
     app_Stop := fun _ _ _ => None;
     app_Start := fun _ _ _ => None;
     services_Load := fun _ _ => None;
     srv_ShouldStart := fun _ _ => true;
     srv_Stop := fun _ _ => None;
     srv_Start := fun _ _ => None;
     MaintenanceWindows := windows;
     Applications := [("incus", "6.14")];
     Supported := ["iscsi"; "kopia"; "ovn"];
     filepath_Join := Join;
     strings_TrimSpace := TrimSpace;
     json_Unmarshal := fun _ => ([], None) |}.

Definition never (_ : nat) (_ : string) (_ : list string) : bool := false.

(** The command named [name] whose first argument is [verb] fails. *)
Definition failing (name verb : string) (_ : nat) (n : string) (args : list string)
  : bool :=
  String.eqb n name && String.eqb (nth 0 args "") verb.

Definition calm : Env := world never [] true.

Definition s3 : ServiceKopiaBackendS3 :=
  {| Endpoint := "minio.example.com:9000"; Bucket := "backups";
     AccessKey := "AKIAEXAMPLE"; SecretKey := "secret"; Region := "" |}.

Definition config (id : string) : ServiceKopiaConfig :=
  {| Enabled := true; RepositoryPassword := "hunter2";
     Backend := {| Type_ := "s3"; S3 := Some s3 |};
     Retention := {| KeepLatest := 0; KeepHourly := 0; KeepDaily := 7;
                     KeepWeekly := 0; KeepMonthly := 0; KeepAnnual := 0 |};
     BackupFrequency := ""; RestoreSnapshotID := id |}.

Definition state (connected inProgress : bool) (progress : Z) (status : string)
  : ServiceKopiaState :=
  {| RepositoryConnected := connected; LastBackup := zero_time;
     LastBackupWindow := ""; LastStatus := status;
     InProgress := inProgress; Progress := progress;
     AvailableSnapshots := [] |}.

Definition boot : Machine := {| kopia := zero_kopia; trace := [] |}.

(** A machine whose service is enabled and configured. *)
Definition machine (connected inProgress : bool) (progress : Z)
    (status persistedID : string) : Machine :=
  {| kopia := {| State := state connected inProgress progress status;
                 Config := config persistedID |};
     trace := [] |}.

Definition connected : Machine := machine true false 0 "Repository connected" "".

(** The repository could not be reached when the service was configured. *)
Definition disconnected : Machine :=
  machine false false 0
    "Failed to connect or initialize repository: exit status 1" "".

(** The same, with a restore identifier left in the stored configuration. *)
Definition stale : Machine :=
  machine false false 0
    "Failed to connect or initialize repository: exit status 1" "k100".

(** A backup cycle is under way: the engine is uploading. *)
Definition busy : Machine :=
  machine true true 25 "Creating Kopia snapshot" "".

(** A request to update the configuration, asking for the restore of [id]
    when [id] is not empty. *)
Definition incoming (id : string) : ServiceKopia :=
  {| State := zero_state; Config := config id |}.

Definition request (id : string) : Request := ReqServiceKopia (incoming id).

(** The backup engine refuses every [kopia snapshot ...] command. *)
Definition engine_down : Env := world (failing "kopia" "snapshot") [] true.

(** One maintenance window is configured, and it is active. *)
Definition window1 : MaintenanceWindow := {| WindowID := "w1" |}.
Definition windowed : Env := world never [window1] true.

(** The service has been enabled, then a backup has run while the engine
    was down. *)
Definition after_failed_backup : Machine :=
  run engine_down OpBackup (run engine_down (OpUpdate (request "")) boot).

(** The service has been enabled, then a backup has run. *)
Definition after_backup : Machine :=
  run calm OpBackup (run calm (OpUpdate (request "")) boot).

End Sample.

(* ================================================================== *)
(** ** More readings of traces *)
(* ================================================================== *)

(** Starting an application or a service. *)
Definition starts (e : Event) : bool :=
  match e with
  | AppStart _ _ | SrvStart _ => true
  | _ => false
  end.

(** An event that does not concern the service called [kopia]. *)
Definition not_self (e : Event) : bool :=
  match e with
  | SrvLoad name | SrvShouldStart name | SrvStop name | SrvStart name =>
      negb (String.eqb name "kopia")
  | _ => true
  end.

(** What the stopping loops may produce, and what the starting loops
    may. *)
Definition stop_phase (e : Event) : bool :=
  registry e && negb (starts e) && not_self e.

Definition start_phase (e : Event) : bool :=
  registry e && negb (stops e) && not_self e.

(** The services stopped, and those started, in order. *)
Fixpoint services_stopped (evs : list Event) : list string :=
  match evs with
  | [] => []
  | SrvStop name :: rest => name :: services_stopped rest
  | _ :: rest => services_stopped rest
  end.

Fixpoint services_started (evs : list Event) : list string :=
  match evs with
  | [] => []
  | SrvStart name :: rest => name :: services_started rest
  | _ :: rest => services_started rest
  end.

(** [subseq a b]: the names of [a] occur in [b], in the same order. *)
Fixpoint subseq (a b : list string) {struct b} : bool :=
  match b with
  | [] => match a with [] => true | _ :: _ => false end
  | y :: b' =>
      match a with
      | [] => true
      | x :: a' => if String.eqb x y then subseq a' b' else subseq a b'
      end
  end.

(** The names handed to [zfs destroy]. *)
Fixpoint snapshots_destroyed (cmds : list (string * list string)) : list string :=
  match cmds with
  | [] => []
  | (name, args) :: rest =>
      match args with
      | [verb; snap] =>
          if String.eqb name "zfs" && String.eqb verb "destroy"
          then snap :: snapshots_destroyed rest
          else snapshots_destroyed rest
      | _ => snapshots_destroyed rest
      end
  end.

(** The directories made with [os.MkdirAll]. *)
Fixpoint directories_made (evs : list Event) : list string :=
  match evs with
  | [] => []
  | MkdirAll path :: rest => path :: directories_made rest
  | _ :: rest => directories_made rest
  end.

(** The directories removed with [os.RemoveAll]. *)
Fixpoint directories_removed (evs : list Event) : list string :=
  match evs with
  | [] => []
  | RemoveAll path :: rest => path :: directories_removed rest
  | _ :: rest => directories_removed rest
  end.

(** The command [name] run with [verb] as its first argument. *)
Definition is_command (name verb : string) (e : Event) : bool :=
  match e with
  | RunCommand n (v :: _) => String.eqb n name && String.eqb v verb
  | _ => false
  end.

(** The events that come after the first one for which [p] holds, and
    those that come before it (all of them if there is none). *)
Fixpoint after (p : Event -> bool) (evs : list Event) : list Event :=
  match evs with
  | [] => []
  | e :: rest => if p e then rest else after p rest
  end.

Fixpoint before (p : Event -> bool) (evs : list Event) : list Event :=
  match evs with
  | [] => []
  | e :: rest => if p e then [] else e :: before p rest
  end.

(** The record, but for the list of snapshots. *)
Definition same_but_snapshots (k k' : ServiceKopia) : Prop :=
  Config k' = Config k /\
  RepositoryConnected (State k') = RepositoryConnected (State k) /\
  LastBackup (State k') = LastBackup (State k) /\
  LastBackupWindow (State k') = LastBackupWindow (State k) /\
  LastStatus (State k') = LastStatus (State k) /\
  InProgress (State k') = InProgress (State k) /\
  Progress (State k') = Progress (State k).

(** [refreshSnapshots]' conversion of one element of the JSON list. *)
Definition snapshot_of_json (snap : kopiaSnapshotJSON) : ServiceKopiaSnapshotInfo :=
  {| ID := json_id snap;
     Time := json_startTime snap;
     Size := json_stats_totalSize snap;
     Source := json_source_path snap;
     Description := json_description snap |}.

(** The arguments that tell a repository apart: all of them but the verb. *)
Definition repository_arguments (s3 : ServiceKopiaBackendS3) (password : string)
  : list string :=
  (["s3"; "--bucket"; Bucket s3; "--endpoint"; Endpoint s3; "--disable-tls";
    "--access-key"; AccessKey s3; "--secret-access-key"; SecretKey s3;
    "--password"; password] ++
   (if String.eqb (Region s3) "" then [] else ["--region"; Region s3]))%list.

(** The retention counts that are set. *)
Definition retention_set (p : ServiceKopiaRetentionPolicy) : list (string * Z) :=
  filter (fun flag => 0 <? snd flag)
    [("--keep-latest", KeepLatest p); ("--keep-hourly", KeepHourly p);
     ("--keep-daily", KeepDaily p); ("--keep-weekly", KeepWeekly p);
     ("--keep-monthly", KeepMonthly p); ("--keep-annual", KeepAnnual p)].

(** What [getPoolMountpoint] makes of the answer of [zfs get mountpoint]:
    the answer without the white space around it, or the directory of the
    pool's name under the root when ZFS says [none] or [legacy] (lines 389
    to 395). *)
Definition mountpoint_of (env : Env) (poolName output : string) : string :=
  let mountpoint := strings_TrimSpace env output in
  if String.eqb mountpoint "none" || String.eqb mountpoint "legacy"
  then filepath_Join env ["/"; poolName]
  else mountpoint.

(* ================================================================== *)
(** ** More of the sample system *)
(* ================================================================== *)

Module Scenario.

(** The configuration of the sample system without its password. *)
Definition config_without_password : ServiceKopiaConfig :=
  {| Enabled := true; RepositoryPassword := "";
     Backend := Backend (Sample.config "");
     Retention := Retention (Sample.config "");
     BackupFrequency := ""; RestoreSnapshotID := "" |}.

Definition no_password : Machine :=
  {| kopia := {| State := zero_state; Config := config_without_password |};
     trace := [] |}.

(** A request that disables the service. *)
Definition disabling : ServiceKopia :=
  {| State := zero_state;
     Config := {| Enabled := false; RepositoryPassword := "hunter2";
                  Backend := Backend (Sample.config "");
                  Retention := Retention (Sample.config "");
                  BackupFrequency := ""; RestoreSnapshotID := "" |} |}.

(** The same request as [Sample.incoming], carrying a state of its own. *)
Definition incoming_with_state (id : string) : ServiceKopia :=
  {| State := State (kopia Sample.busy); Config := Sample.config id |}.

(** [rsync] fails; [zfs destroy] fails. *)
Definition rsync_down : Env :=
  Sample.world (Sample.failing "rsync" "-a") [] true.

Definition destroy_down : Env :=
  Sample.world (Sample.failing "zfs" "destroy") [] true.

(** The service right after it was enabled on the sample system, and
    after the restore of k123 was then asked for. *)
Definition enabled : Machine :=
  run Sample.calm (OpUpdate (Sample.request "")) Sample.boot.

Definition restored_once : Machine :=
  run Sample.calm (OpUpdate (Sample.request "k123")) enabled.

(** The same two steps on a system whose [rsync] fails: the restore of
    k123 fails. *)
Definition enabled_rsync_down : Machine :=
  run rsync_down (OpUpdate (Sample.request "")) Sample.boot.

Definition restore_failed_once : Machine :=
  run rsync_down (OpUpdate (Sample.request "k123")) enabled_rsync_down.

(** The service enabled on a system with one active maintenance window. *)
Definition enabled_windowed : Machine :=
  run Sample.windowed (OpUpdate (Sample.request "")) Sample.boot.

End Scenario.

(* ================================================================== *)
(** ** Names: where the '@' signs are *)
(* ================================================================== *)

Lemma count_at_app (a b : string) :
  count_at (a ++ b) = (count_at a + count_at b)%nat.
Proof.
  induction a as [|c a IH]; simpl; [reflexivity|].
  rewrite IH. lia.
Qed.

Lemma count_at_uint (d : uint) : count_at (NilEmpty.string_of_uint d) = 0%nat.
Proof. induction d; simpl; auto. Qed.

Lemma count_at_zeros (n : nat) : count_at (zeros n) = 0%nat.
Proof. induction n; simpl; auto. Qed.

Lemma count_at_pad (w n : nat) : count_at (pad w n) = 0%nat.
Proof.
  unfold pad, itoa. rewrite count_at_app, count_at_zeros, count_at_uint.
  reflexivity.
Qed.

Lemma count_at_Format_compact (t : GoTime) : count_at (Format_compact t) = 0%nat.
Proof.
  unfold Format_compact.
  repeat rewrite count_at_app. repeat rewrite count_at_pad. reflexivity.
Qed.

Lemma split_at_length (s : string) : length (split_at s) = S (count_at s).
Proof.
  induction s as [|c s IH]; simpl; [reflexivity|].
  destruct (Ascii.eqb c "@"); simpl; [now rewrite IH|].
  destruct (split_at s); simpl in *; lia.
Qed.

Lemma wellFormed_one_at (s : string) :
  wellFormedSnapshotName s = true -> count_at s = 1%nat.
Proof.
  unfold wellFormedSnapshotName. intros H.
  pose proof (split_at_length s) as L.
  destruct (split_at s) as [|a [|b [|c l]]]; try discriminate.
  simpl in L. lia.
Qed.

Lemma requested_name_two_ats (t1 t2 : GoTime) :
  count_at (requested_name t1 t2) = 2%nat.
Proof.
  unfold requested_name, safety_name.
  repeat rewrite count_at_app. repeat rewrite count_at_Format_compact.
  reflexivity.
Qed.

Lemma requested_name_malformed (t1 t2 : GoTime) :
  wellFormedSnapshotName (requested_name t1 t2) = false.
Proof.
  destruct (wellFormedSnapshotName (requested_name t1 t2)) eqn:E; [|reflexivity].
  apply wellFormed_one_at in E. rewrite requested_name_two_ats in E. discriminate.
Qed.

(* ================================================================== *)
(** ** Traces: bookkeeping *)
(* ================================================================== *)

Lemma commands_app (a b : list Event) :
  commands (a ++ b) = (commands a ++ commands b)%list.
Proof.
  induction a as [|e a IH]; simpl; [reflexivity|].
  destruct e; simpl; rewrite IH; reflexivity.
Qed.

Lemma progress_writes_app (a b : list Event) :
  progress_writes (a ++ b) = (progress_writes a ++ progress_writes b)%list.
Proof.
  induction a as [|e a IH]; simpl; [reflexivity|].
  destruct e; simpl; rewrite IH; reflexivity.
Qed.

Lemma snapshots_requested_app (a b : list (string * list string)) :
  snapshots_requested (a ++ b) =
  (snapshots_requested a ++ snapshots_requested b)%list.
Proof.
  induction a as [|[name args] a IH]; simpl; [reflexivity|].
  destruct args as [|v [|s [|x l]]]; auto.
  destruct (String.eqb name "zfs" && String.eqb v "snapshot"); simpl;
    rewrite IH; reflexivity.
Qed.

Lemma registry_commands (evs : list Event) :
  forallb registry evs = true -> commands evs = [].
Proof.
  induction evs as [|e evs IH]; simpl; [reflexivity|].
  intros H. apply andb_prop in H. destruct H as [He H].
  destruct e; simpl in *; try discriminate; auto.
Qed.

Lemma registry_progress_writes (evs : list Event) :
  forallb registry evs = true -> progress_writes evs = [].
Proof.
  induction evs as [|e evs IH]; simpl; [reflexivity|].
  intros H. apply andb_prop in H. destruct H as [He H].
  destruct e; simpl in *; try discriminate; auto.
Qed.

Lemma since_app (m : Machine) (k : ServiceKopia) (evs : list Event) :
  since m {| kopia := k; trace := trace m ++ evs |} = evs.
Proof.
  unfold since. simpl.
  induction (trace m) as [|e l IH]; simpl; auto.
Qed.

Lemma since_self (m : Machine) : since m m = [].
Proof.
  unfold since. induction (trace m) as [|e l IH]; simpl; auto.
Qed.

(* ================================================================== *)
(** ** The loops only talk to the registries *)
(* ================================================================== *)

Lemma registry_only_ret {A} (a : A) : registry_only (ret a).
Proof.
  intros m. exists a, []. split; [|reflexivity].
  unfold ret. rewrite app_nil_r. destruct m; reflexivity.
Qed.

Lemma registry_only_call {A B} (e : Event) (answer : nat -> A) (k : A -> M B) :
  registry e = true ->
  (forall a, registry_only (k a)) ->
  registry_only (bind (call e answer) k).
Proof.
  intros He Hk m. unfold bind, call.
  destruct (Hk (answer (length (trace m)))
               {| kopia := kopia m; trace := trace m ++ [e] |})
    as (b & evs & E & R).
  exists b, (e :: evs). split.
  - rewrite E. simpl. rewrite <- app_assoc. reflexivity.
  - simpl. rewrite He. exact R.
Qed.

Ltac registry_loop IH :=
  repeat first
    [ apply IH
    | apply registry_only_ret
    | apply registry_only_call; [reflexivity | intros ?]
    | match goal with
      | |- registry_only (match ?x with _ => _ end) => destruct x
      | |- registry_only (if ?b then _ else _) => destruct b
      end ].

Lemma stopApplications_registry env apps : registry_only (stopApplications env apps).
Proof. induction apps as [|[name version] rest IH]; simpl; registry_loop IH. Qed.

Lemma startApplications_registry env apps : registry_only (startApplications env apps).
Proof. induction apps as [|[name version] rest IH]; simpl; registry_loop IH. Qed.

Lemma stopServices_registry env names : registry_only (stopServices env names).
Proof. induction names as [|name rest IH]; simpl; registry_loop IH. Qed.

Lemma startServices_registry env names : registry_only (startServices env names).
Proof. induction names as [|name rest IH]; simpl; registry_loop IH. Qed.

Lemma anyWindowActive_registry env ws : registry_only (anyWindowActive env ws).
Proof. induction ws as [|w rest IH]; simpl; registry_loop IH. Qed.

Lemma isInMaintenanceWindow_registry env : registry_only (isInMaintenanceWindow env).
Proof.
  unfold isInMaintenanceWindow.
  destruct (length (MaintenanceWindows env) =? 0)%nat.
  - apply registry_only_ret.
  - apply anyWindowActive_registry.
Qed.

(** Symbolic execution of service code: the monad is unfolded, each loop
    is replaced by what the lemmas above say of it, and every answer of
    the environment is split into its cases. *)
Ltac unfold_go :=
  cbv [bind ret call get_kopia assign_State assign_Progress assign_Config
       RunCommandContext findLocalPool getPoolMountpoint createZFSSnapshot
       destroyZFSSnapshot getSnapshotPath restoreSnapshot applyRestoredData
       wrap] in *.

Ltac loop_step :=
  match goal with
  | |- context [stopApplications ?e ?l ?m] =>
      let a := fresh "u" in let evs := fresh "evs" in
      let E := fresh "E" in let R := fresh "R" in
      destruct (stopApplications_registry e l m) as (a & evs & E & R);
      rewrite E; clear E; destruct a
  | |- context [startApplications ?e ?l ?m] =>
      let a := fresh "u" in let evs := fresh "evs" in
      let E := fresh "E" in let R := fresh "R" in
      destruct (startApplications_registry e l m) as (a & evs & E & R);
      rewrite E; clear E; destruct a
  | |- context [stopServices ?e ?l ?m] =>
      let a := fresh "u" in let evs := fresh "evs" in
      let E := fresh "E" in let R := fresh "R" in
      destruct (stopServices_registry e l m) as (a & evs & E & R);
      rewrite E; clear E; destruct a
  | |- context [startServices ?e ?l ?m] =>
      let a := fresh "u" in let evs := fresh "evs" in
      let E := fresh "E" in let R := fresh "R" in
      destruct (startServices_registry e l m) as (a & evs & E & R);
      rewrite E; clear E; destruct a
  | |- context [isInMaintenanceWindow ?e ?m] =>
      let a := fresh "inWindow" in let evs := fresh "evs" in
      let E := fresh "E" in let R := fresh "R" in
      destruct (isInMaintenanceWindow_registry e m) as (a & evs & E & R);
      rewrite E; clear E
  end.

Ltac case_step :=
  match goal with
  | |- context [match ?x with _ => _ end] =>
      lazymatch x with
      | context [match _ with _ => _ end] => fail
      | _ => let E := fresh "E" in destruct x eqn:E
      end
  end.

Ltac run_go := repeat (cbn [fst snd kopia trace State Config]; first [loop_step | case_step]).

(* ================================================================== *)
(** ** The retention step *)
(* ================================================================== *)

Lemma expire_shape_keep (b : bool) (args extra : list string) :
  (exists rest, args = "snapshot" :: "expire" :: rest) ->
  exists rest,
    (if b then (args ++ extra)%list else args) = "snapshot" :: "expire" :: rest.
Proof.
  intros [rest ->]. destruct b; simpl; eauto.
Qed.

Lemma retentionArgs_shape (config : ServiceKopiaConfig) :
  exists rest, retentionArgs config = "snapshot" :: "expire" :: rest.
Proof.
  unfold retentionArgs. cbv zeta.
  repeat apply expire_shape_keep. exists []. reflexivity.
Qed.

(** No count above zero: the argument list stays at its two first words. *)
Lemma retentionArgs_none (config : ServiceKopiaConfig) :
  KeepLatest (Retention config) <= 0 -> KeepHourly (Retention config) <= 0 ->
  KeepDaily (Retention config) <= 0 -> KeepWeekly (Retention config) <= 0 ->
  KeepMonthly (Retention config) <= 0 -> KeepAnnual (Retention config) <= 0 ->
  retentionArgs config = ["snapshot"; "expire"].
Proof.
  intros H1 H2 H3 H4 H5 H6. unfold retentionArgs.
  apply Z.ltb_ge in H1, H2, H3, H4, H5, H6.
  rewrite H1, H2, H3, H4, H5, H6. reflexivity.
Qed.

(** The retention step leaves the record alone and runs at most one
    command, a [kopia snapshot expire]. *)
Lemma applyRetention_spec env m :
  exists r evs,
    applyRetention env m =
      (r, {| kopia := kopia m; trace := trace m ++ evs |}) /\
    (evs = [] \/
     exists rest, evs = [RunCommand "kopia" ("snapshot" :: "expire" :: rest)]).
Proof.
  unfold applyRetention. unfold_go. cbv zeta.
  destruct (retentionArgs_shape (Config (kopia m))) as [rest E]. rewrite E.
  destruct (length ("snapshot" :: "expire" :: rest) =? 2)%nat.
  - exists None, []. rewrite app_nil_r. destruct m; auto.
  - destruct (subprocess_RunCommandContext env (length (trace m)) "kopia"
                ("snapshot" :: "expire" :: rest)) as [out [e|]];
      eexists; eexists; split; try reflexivity; right; eauto.
Qed.

Ltac retention_step :=
  match goal with
  | |- context [applyRetention ?e ?m] =>
      let r := fresh "retained" in let evs := fresh "evs" in
      let E := fresh "E" in let R := fresh "Hexpire" in
      destruct (applyRetention_spec e m) as (r & evs & E & R);
      rewrite E; clear E
  end.

Ltac run_go ::=
  repeat (cbn [fst snd kopia trace State Config];
          first [loop_step | retention_step | case_step]).

(* ================================================================== *)
(** ** What the operations leave alone *)
(* ================================================================== *)

Lemma Stop_Config m : Config (kopia (snd (Stop m))) = Config (kopia m).
Proof. unfold Stop. unfold_go. run_go; reflexivity. Qed.

Lemma Stop_ok m : fst (Stop m) = None.
Proof. unfold Stop. unfold_go. run_go; reflexivity. Qed.

Lemma configure_Config env m :
  Config (kopia (snd (configure env m))) = Config (kopia m).
Proof.
  unfold configure, ensureKopiaCacheDataset, connectOrInitRepository,
    connectRepository, initRepository, connectS3Repository, initS3Repository.
  unfold_go. run_go; reflexivity.
Qed.

Lemma Start_Config env m :
  Config (kopia (snd (Start env m))) = Config (kopia m).
Proof.
  unfold Start, bind, get_kopia.
  destruct (negb (Enabled (Config (kopia m)))); [reflexivity|].
  apply configure_Config.
Qed.

Lemma Get_Config env m :
  Config (kopia (snd (Get env m))) = Config (kopia m).
Proof. unfold Get, refreshSnapshots. unfold_go. run_go; reflexivity. Qed.

Lemma PerformRestore_Config env id m :
  Config (kopia (snd (PerformRestore env id m))) = Config (kopia m).
Proof.
  unfold PerformRestore, PerformRestore_deferred. unfold_go.
  run_go; reflexivity.
Qed.

Lemma performBackup_Config env m :
  Config (kopia (snd (performBackup env m))) = Config (kopia m).
Proof.
  unfold performBackup, performBackup_deferred. unfold_go.
  run_go; reflexivity.
Qed.

Lemma restore_entry_Config newState m :
  Config (kopia (restore_entry newState m)) = Config (kopia m).
Proof.
  unfold restore_entry.
  destruct (Enabled (Config (kopia m)) && negb (Enabled (Config newState))).
  - apply Stop_Config.
  - reflexivity.
Qed.

(** Lines 82 to 101 end with the configuration they were given. *)
Lemma Update_apply_Config env oldState newConfig m :
  Config (kopia (snd (Update_apply env oldState newConfig m))) = newConfig.
Proof.
  unfold Update_apply, bind, assign_Config, get_kopia.
  set (m1 := {| kopia := {| State := State (kopia m); Config := newConfig |};
                trace := trace m |}).
  assert (H1 : Config (kopia m1) = newConfig) by reflexivity.
  destruct (negb (Enabled (Config oldState)) && Enabled newConfig).
  - pose proof (Start_Config env m1) as HS.
    destruct (Start env m1) as [[e|] m2]; simpl in *; [congruence|].
    destruct (Enabled (Config (kopia m2))); simpl.
    + rewrite configure_Config. congruence.
    + congruence.
  - unfold ret. simpl.
    destruct (Enabled newConfig); simpl; [|reflexivity].
    rewrite configure_Config. reflexivity.
Qed.

(** How [Update] goes when its request triggers a restore. *)
Lemma Update_triggered env restore newState m :
  triggers_restore newState m = true ->
  UpdateWith env restore (ReqServiceKopia newState) m =
    (let (attempt, m1) :=
       restore (RestoreSnapshotID (Config newState)) (restore_entry newState m) in
     let (result, m2) :=
       match attempt with
       | Some e => (Some e, m1)
       | None =>
           Update_apply env (kopia m)
             (set_RestoreSnapshotID "" (Config newState)) m1
       end in
     (result, {| kopia := kopia m2; trace := trace m2 ++ [Save (kopia m2)] |})).
Proof.
  unfold triggers_restore, restore_entry, UpdateWith, bind, get_kopia, call, ret.
  intros T. rewrite T.
  destruct (Enabled (Config (kopia m)) && negb (Enabled (Config newState))).
  - pose proof (Stop_ok m) as HS.
    destruct (Stop m) as [r m1]. simpl in HS. subst r. simpl.
    destruct (restore (RestoreSnapshotID (Config newState)) m1) as [[e|] m2];
      [reflexivity|].
    destruct (Update_apply env (kopia m) _ m2); reflexivity.
  - simpl.
    destruct (restore (RestoreSnapshotID (Config newState)) m) as [[e|] m2];
      [reflexivity|].
    destruct (Update_apply env (kopia m) _ m2); reflexivity.
Qed.

(** How [Update] goes when it does not. *)
Lemma Update_untriggered env restore newState m :
  triggers_restore newState m = false ->
  UpdateWith env restore (ReqServiceKopia newState) m =
    (let (result, m2) :=
       Update_apply env (kopia m) (Config newState) (restore_entry newState m) in
     (result, {| kopia := kopia m2; trace := trace m2 ++ [Save (kopia m2)] |})).
Proof.
  unfold triggers_restore, restore_entry, UpdateWith, bind, get_kopia, call, ret.
  intros T. rewrite T.
  destruct (Enabled (Config (kopia m)) && negb (Enabled (Config newState))).
  - pose proof (Stop_ok m) as HS.
    destruct (Stop m) as [r m1]. simpl in HS. subst r. simpl.
    destruct (Update_apply env (kopia m) _ m1); reflexivity.
  - simpl. destruct (Update_apply env (kopia m) _ m); reflexivity.
Qed.

(* ================================================================== *)
(** ** The restore trigger of [Update] *)
(* ================================================================== *)

(** Whatever [Update] is given in place of a [*api.ServiceKopia], and
    whichever way it returns otherwise, the record handed to [state.Save]
    is the one the service ends with. *)
Lemma Update_saves_final env restore newState m :
  let m' := snd (UpdateWith env restore (ReqServiceKopia newState) m) in
  exists before, trace m' = (before ++ [Save (kopia m')])%list.
Proof.
  destruct (triggers_restore newState m) eqn:T.
  - rewrite Update_triggered by exact T.
    destruct (restore _ (restore_entry newState m)) as [[e|] m1].
    + simpl. eexists. reflexivity.
    + destruct (Update_apply env (kopia m) _ m1) as [r m2].
      simpl. eexists. reflexivity.
  - rewrite Update_untriggered by exact T.
    destruct (Update_apply env (kopia m) _ (restore_entry newState m)) as [r m2].
    simpl. eexists. reflexivity.
Qed.

(** The stored restore identifier of a service that started from a fresh
    state is always empty: [Update] stores a non-empty one only when it
    equals the stored one. *)
Lemma reachable_restore_id_empty env m :
  reachable env m -> RestoreSnapshotID (Config (kopia m)) = "".
Proof.
  induction 1 as [|m op R IH]; [reflexivity|].
  destruct op as [[newState|ty]| | | |]; cbn [run].
  - unfold Update.
    destruct (triggers_restore newState m) eqn:T.
    + rewrite Update_triggered by exact T.
      pose proof (PerformRestore_Config env
                    (RestoreSnapshotID (Config newState))
                    (restore_entry newState m)) as HC.
      destruct (PerformRestore env _ (restore_entry newState m)) as [[e|] m1];
        simpl in *.
      * rewrite HC, restore_entry_Config. exact IH.
      * pose proof (Update_apply_Config env (kopia m)
                      (set_RestoreSnapshotID "" (Config newState)) m1) as HA.
        destruct (Update_apply env (kopia m) _ m1) as [r m2]; simpl in *.
        rewrite HA. reflexivity.
    + rewrite Update_untriggered by exact T.
      pose proof (Update_apply_Config env (kopia m) (Config newState)
                    (restore_entry newState m)) as HA.
      destruct (Update_apply env (kopia m) _ (restore_entry newState m))
        as [r m2]; simpl in *.
      rewrite HA. unfold triggers_restore in T. rewrite IH in T.
      destruct (String.eqb_spec (RestoreSnapshotID (Config newState)) "");
        [assumption | discriminate].
  - exact IH.
  - rewrite Get_Config. exact IH.
  - rewrite Start_Config. exact IH.
  - rewrite Stop_Config. exact IH.
  - rewrite performBackup_Config. exact IH.
Qed.

(** What a triggered update leaves in the stored [restore_snapshot_id],
    by the outcome of the restore: empty after a success; after a failure
    [Update] returns before it stores anything, so the field keeps the
    value it had, which is empty in every state the service reaches from
    a fresh one. *)
Lemma restore_id_by_outcome env newState m :
  triggers_restore newState m = true ->
  let attempt := fst (PerformRestore env (RestoreSnapshotID (Config newState))
                        (restore_entry newState m)) in
  let m' := snd (Update env (ReqServiceKopia newState) m) in
  (attempt = None -> RestoreSnapshotID (Config (kopia m')) = "") /\
  (attempt <> None ->
     RestoreSnapshotID (Config (kopia m')) = RestoreSnapshotID (Config (kopia m))) /\
  (reachable env m -> RestoreSnapshotID (Config (kopia m')) = "") /\
  (exists before, trace m' = (before ++ [Save (kopia m')])%list).
Proof.
  intros T attempt m'.
  assert (S1 : attempt = None -> RestoreSnapshotID (Config (kopia m')) = "").
  { subst attempt m'. unfold Update. rewrite Update_triggered by exact T.
    destruct (PerformRestore env _ (restore_entry newState m)) as [[e|] m1];
      simpl; [discriminate|]. intros _.
    pose proof (Update_apply_Config env (kopia m)
                  (set_RestoreSnapshotID "" (Config newState)) m1) as HA.
    destruct (Update_apply env (kopia m) _ m1) as [r m2]; simpl in *.
    rewrite HA. reflexivity. }
  assert (S2 : attempt <> None ->
               RestoreSnapshotID (Config (kopia m')) =
               RestoreSnapshotID (Config (kopia m))).
  { subst attempt m'. unfold Update. rewrite Update_triggered by exact T.
    pose proof (PerformRestore_Config env
                  (RestoreSnapshotID (Config newState))
                  (restore_entry newState m)) as HC.
    destruct (PerformRestore env _ (restore_entry newState m)) as [[e|] m1];
      simpl in *; [|congruence]. intros _.
    rewrite HC, restore_entry_Config. reflexivity. }
  repeat split; auto.
  - intros R. destruct attempt eqn:A.
    + rewrite S2 by discriminate. apply (reachable_restore_id_empty env). exact R.
    + apply S1. reflexivity.
  - apply Update_saves_final.
Qed.

(** C1: for every configuration update that triggers a restore on a
    state the service reaches from a fresh one, the stored
    [restore_snapshot_id] is empty once [Update] has returned, whether
    [PerformRestore] succeeded or failed; it is what [state.Save] is
    handed.  After a success line 79 has cleared the incoming identifier;
    after a failure [Update] returns before it stores anything, and what
    was stored before was empty already. *)
Theorem restore_id_empty_after_triggered_update env newState m :
  reachable env m ->
  triggers_restore newState m = true ->
  let attempt := fst (PerformRestore env (RestoreSnapshotID (Config newState))
                        (restore_entry newState m)) in
  let m' := snd (Update env (ReqServiceKopia newState) m) in
  RestoreSnapshotID (Config (kopia m')) = "" /\
  (attempt = None \/ exists e, attempt = Some e /\
     fst (Update env (ReqServiceKopia newState) m) = Some e) /\
  (exists before, trace m' = (before ++ [Save (kopia m')])%list).
Proof.
  intros R T attempt m'.
  split; [|split].
  - apply (reachable_restore_id_empty env).
    exact (reachable_step env m (OpUpdate (ReqServiceKopia newState)) R).
  - subst attempt. unfold Update. rewrite Update_triggered by exact T.
    destruct (PerformRestore env _ (restore_entry newState m)) as [[e|] m1];
      simpl; [right; exists e; auto | left; reflexivity].
  - apply Update_saves_final.
Qed.

(** C10: when a configuration update triggers a restore and
    [PerformRestore] returns an error, [Update] returns that error and the
    stored configuration, the previous [restore_snapshot_id] included, is
    the one from before the update; it is what [state.Save] is handed. *)
Theorem failed_restore_keeps_configuration env newState m e :
  triggers_restore newState m = true ->
  fst (PerformRestore env (RestoreSnapshotID (Config newState))
         (restore_entry newState m)) = Some e ->
  let (result, m') := Update env (ReqServiceKopia newState) m in
  result = Some e /\
  Config (kopia m') = Config (kopia m) /\
  exists before, trace m' = (before ++ [Save (kopia m')])%list.
Proof.
  intros T F. unfold Update. rewrite Update_triggered by exact T.
  pose proof (PerformRestore_Config env (RestoreSnapshotID (Config newState))
                (restore_entry newState m)) as HC.
  destruct (PerformRestore env _ (restore_entry newState m)) as [attempt m1].
  simpl in F. subst attempt. simpl in *.
  rewrite HC, restore_entry_Config. repeat split. eexists. reflexivity.
Qed.

(** When the incoming [restore_snapshot_id] equals the stored one, both
    empty included, the guard of line 71 is false and [Update] does not
    run the restore: its result and its effects are the same whatever is
    put in the place of [PerformRestore]. *)
Lemma unchanged_restore_id_starts_no_restore env newState m :
  RestoreSnapshotID (Config newState) = RestoreSnapshotID (Config (kopia m)) ->
  forall restore : string -> M error,
    UpdateWith env restore (ReqServiceKopia newState) m =
    Update env (ReqServiceKopia newState) m.
Proof.
  intros Same restore.
  assert (T : triggers_restore newState m = false).
  { unfold triggers_restore. rewrite Same, String.eqb_refl.
    apply andb_false_r. }
  unfold Update. rewrite !Update_untriggered by exact T. reflexivity.
Qed.

(** On a reachable state the trigger of line 71 is the test that the
    incoming identifier is not empty. *)
Lemma reachable_trigger env newState m :
  reachable env m ->
  triggers_restore newState m =
  negb (String.eqb (RestoreSnapshotID (Config newState)) "").
Proof.
  intros R. unfold triggers_restore.
  rewrite (reachable_restore_id_empty env m R).
  destruct (String.eqb (RestoreSnapshotID (Config newState)) "");
    reflexivity.
Qed.

(** C7, as the code has it.  When the incoming [restore_snapshot_id]
    equals the stored one [Update] does not run the restore: its result
    and its effects are the same whatever is put in the place of
    [PerformRestore].  On the states the service reaches from a fresh one
    the stored identifier is empty, so that this is the case of the empty
    incoming identifier and no other: an update with an identifier that
    is not empty hands it to [PerformRestore], and the same update sent
    once more hands it to [PerformRestore] once more. *)
Theorem restore_runs_whenever_id_is_set env newState m :
  let id := RestoreSnapshotID (Config newState) in
  let runs_restore := fun m0 : Machine =>
    forall restore : string -> M error,
      UpdateWith env restore (ReqServiceKopia newState) m0 =
        (let (attempt, m1) := restore id (restore_entry newState m0) in
         let (result, m2) :=
           match attempt with
           | Some e => (Some e, m1)
           | None =>
               Update_apply env (kopia m0)
                 (set_RestoreSnapshotID "" (Config newState)) m1
           end in
         (result,
          {| kopia := kopia m2; trace := trace m2 ++ [Save (kopia m2)] |})) in
  (id = RestoreSnapshotID (Config (kopia m)) ->
   forall restore : string -> M error,
     UpdateWith env restore (ReqServiceKopia newState) m =
     Update env (ReqServiceKopia newState) m) /\
  (reachable env m ->
   (id = RestoreSnapshotID (Config (kopia m)) <-> id = "") /\
   (id <> "" ->
    runs_restore m /\
    runs_restore (snd (Update env (ReqServiceKopia newState) m)))).
Proof.
  intros id runs_restore.
  assert (Runs : forall m0, reachable env m0 -> id <> "" -> runs_restore m0).
  { intros m0 R0 Hset restore. apply Update_triggered.
    rewrite (reachable_trigger env newState m0 R0). fold id.
    destruct (String.eqb_spec id ""); [contradiction | reflexivity]. }
  split; [|intros R; split; [|intros Hset; split]].
  - apply unchanged_restore_id_starts_no_restore.
  - rewrite (reachable_restore_id_empty env m R). tauto.
  - apply Runs; assumption.
  - apply Runs; [|assumption].
    exact (reachable_step env m (OpUpdate (ReqServiceKopia newState)) R).
Qed.

(* ================================================================== *)
(** ** Preconditions *)
(* ================================================================== *)

(** C6: a restore asked for while the repository is not connected fails
    and changes nothing: the machine, [in_progress], [progress] and
    [last_status] included, is the one from before, and nothing was asked
    of the outside, so no service and no application was stopped. *)
Theorem restore_needs_connected_repository env snapshotID m :
  RepositoryConnected (State (kopia m)) = false ->
  let (result, m') := PerformRestore env snapshotID m in
  result = Some "repository not connected" /\
  m' = m /\
  since m m' = [] /\
  existsb stops (since m m') = false.
Proof.
  intros H. unfold PerformRestore, bind, get_kopia, ret. rewrite H. simpl.
  rewrite since_self. auto.
Qed.

(** C9: when the six counts of the retention policy are zero, which is
    what absent counts are, [applyRetention] succeeds without running any
    command: nothing is added to the trace. *)
Theorem empty_retention_expires_nothing env m :
  Retention (Config (kopia m)) = zero_retention ->
  applyRetention env m = (None, m) /\
  commands (since m (snd (applyRetention env m))) = [].
Proof.
  intros H.
  assert (E : applyRetention env m = (None, m)).
  { unfold applyRetention, bind, get_kopia, ret.
    rewrite retentionArgs_none by (rewrite H; simpl; lia). reflexivity. }
  rewrite E. simpl. rewrite since_self. auto.
Qed.

(* ================================================================== *)
(** ** The [in_progress] flag is never read *)
(* ================================================================== *)

Lemma anyWindowActive_with_InProgress env ws b m :
  anyWindowActive env ws (with_InProgress b m) =
  (fst (anyWindowActive env ws m),
   with_InProgress b (snd (anyWindowActive env ws m))).
Proof.
  revert m. induction ws as [|w rest IH]; intros m; simpl; [reflexivity|].
  unfold bind, call, ret. cbn [trace with_InProgress].
  destruct (IsCurrentlyActive env (length (trace m)) w); [reflexivity|].
  apply (IH {| kopia := kopia m; trace := trace m ++ [IsActive w] |}).
Qed.

Lemma isInMaintenanceWindow_with_InProgress env b m :
  isInMaintenanceWindow env (with_InProgress b m) =
  (fst (isInMaintenanceWindow env m),
   with_InProgress b (snd (isInMaintenanceWindow env m))).
Proof.
  unfold isInMaintenanceWindow.
  destruct (length (MaintenanceWindows env) =? 0)%nat; [reflexivity|].
  apply anyWindowActive_with_InProgress.
Qed.

Lemma PerformRestore_with_InProgress env id b m :
  RepositoryConnected (State (kopia m)) = true ->
  storage_PoolExists env (length (trace m)) "local" = true ->
  PerformRestore env id (with_InProgress b m) = PerformRestore env id m.
Proof.
  intros C P.
  unfold PerformRestore, with_InProgress. unfold_go.
  simpl.
  rewrite C. simpl. rewrite P. simpl.
  reflexivity.
Qed.

(* ================================================================== *)
(** ** What a cycle asks for and writes *)
(* ================================================================== *)

Ltac forget_registry :=
  repeat match goal with
  | R : forallb registry ?evs = true |- _ =>
      rewrite ?(registry_commands evs R), ?(registry_progress_writes evs R);
      clear R
  end.

Ltac trace_norm :=
  cbn [fst snd kopia trace State Config];
  rewrite <- ?app_assoc;
  rewrite ?since_app, ?since_self;
  rewrite ?commands_app, ?progress_writes_app, ?snapshots_requested_app;
  forget_registry.

Lemma PerformRestore_snapshots env snapshotID m (P : list string -> Prop) :
  RepositoryConnected (State (kopia m)) = true ->
  storage_PoolExists env (length (trace m)) "local" = true ->
  (forall t1 t2, P [requested_name t1 t2]) ->
  P (snapshots_requested
       (commands (since m (snd (PerformRestore env snapshotID m))))).
Proof.
  intros C Pool HP.
  unfold PerformRestore, PerformRestore_deferred. unfold_go.
  rewrite C. cbn [negb]. cbv beta iota. rewrite Pool. cbn [negb]. cbv beta iota.
  run_go; trace_norm; simpl; try apply HP.
Qed.

Lemma PerformRestore_progress env snapshotID m :
  nondecreasing
    (progress_writes (since m (snd (PerformRestore env snapshotID m)))) = true.
Proof.
  unfold PerformRestore, PerformRestore_deferred. unfold_go.
  run_go; trace_norm; reflexivity.
Qed.

Lemma performBackup_progress env m :
  nondecreasing (progress_writes (since m (snd (performBackup env m)))) = true.
Proof.
  unfold performBackup, performBackup_deferred. unfold_go.
  run_go; trace_norm.
  all: try reflexivity.
  all: repeat match goal with H : _ \/ _ |- _ => destruct H as [->|[? ->]] end; reflexivity.
Qed.

Lemma flag_blind_ret {A} (a : A) : flag_blind (ret a).
Proof. intros b m. simpl. auto. Qed.

Lemma flag_blind_call {R} (e : Event) (answer : nat -> R) :
  flag_blind (call e answer).
Proof. intros b m. simpl. auto. Qed.

Lemma flag_blind_assign_Progress p : flag_blind (assign_Progress p).
Proof. intros b m. simpl. auto. Qed.

Lemma flag_blind_assign_InProgress v : flag_blind (assign_State (set_InProgress v)).
Proof. intros b m. simpl. auto. Qed.

Lemma flag_blind_assign_State f :
  (forall b s, f (set_InProgress b s) = set_InProgress b (f s)) ->
  flag_blind (assign_State f).
Proof.
  intros H b m. split; [reflexivity|]. right.
  unfold assign_State, with_InProgress. simpl. rewrite H. reflexivity.
Qed.

Lemma flag_blind_bind {A B} (c : M A) (k : A -> M B) :
  flag_blind c -> (forall a, flag_blind (k a)) -> flag_blind (bind c k).
Proof.
  intros Hc Hk b m. unfold bind.
  destruct (Hc b m) as [R S].
  destruct (c (with_InProgress b m)) as [a1 m1].
  destruct (c m) as [a2 m2]. simpl in R, S. subst a2.
  destruct S as [->| ->].
  - auto.
  - apply Hk.
Qed.

(** Reading the record: the code that follows may look at anything but
    the flag. *)
Lemma flag_blind_get {B} (k : ServiceKopia -> M B) :
  (forall b m, k (kopia (with_InProgress b m)) = k (kopia m)) ->
  (forall kop, flag_blind (k kop)) ->
  flag_blind (bind get_kopia k).
Proof.
  intros Hread Hk b m. unfold bind, get_kopia.
  rewrite Hread. apply Hk.
Qed.

Ltac flag_blind_step :=
  first
    [ match goal with H : _ |- flag_blind _ => apply H end
    | progress cbv zeta
    | apply flag_blind_ret
    | apply flag_blind_call
    | apply flag_blind_assign_Progress
    | apply flag_blind_assign_InProgress
    | apply flag_blind_assign_State; reflexivity
    | apply flag_blind_get; [reflexivity | intros ?]
    | apply flag_blind_bind; [| intros ?]
    | match goal with
      | |- flag_blind (match ?x with _ => _ end) => destruct x
      | |- flag_blind (if ?x then _ else _) => destruct x
      | |- flag_blind (let (_, _) := ?x in _) => destruct x
      end ].

Ltac flag_blind_tac := repeat flag_blind_step.

Lemma flag_blind_stopApplications env apps : flag_blind (stopApplications env apps).
Proof. induction apps as [|[name version] rest IH]; simpl; flag_blind_tac. Qed.

Lemma flag_blind_startApplications env apps : flag_blind (startApplications env apps).
Proof. induction apps as [|[name version] rest IH]; simpl; flag_blind_tac. Qed.

Lemma flag_blind_stopServices env names : flag_blind (stopServices env names).
Proof. induction names as [|name rest IH]; simpl; flag_blind_tac. Qed.

Lemma flag_blind_startServices env names : flag_blind (startServices env names).
Proof. induction names as [|name rest IH]; simpl; flag_blind_tac. Qed.

Lemma flag_blind_anyWindowActive env ws : flag_blind (anyWindowActive env ws).
Proof. induction ws as [|w rest IH]; simpl; flag_blind_tac. Qed.

Lemma flag_blind_applyRetention env : flag_blind (applyRetention env).
Proof.
  unfold applyRetention, RunCommandContext.
  flag_blind_tac.
Qed.

Lemma flag_blind_PerformRestore env snapshotID :
  flag_blind (PerformRestore env snapshotID).
Proof.
  pose proof (flag_blind_stopApplications env) as H1.
  pose proof (flag_blind_startApplications env) as H2.
  pose proof (flag_blind_stopServices env) as H3.
  pose proof (flag_blind_startServices env) as H4.
  unfold PerformRestore, PerformRestore_deferred, findLocalPool,
    createZFSSnapshot, getPoolMountpoint, restoreSnapshot, applyRestoredData,
    RunCommandContext.
  flag_blind_tac.
Qed.

Lemma flag_blind_performBackup env : flag_blind (performBackup env).
Proof.
  pose proof (flag_blind_anyWindowActive env) as H1.
  pose proof (flag_blind_applyRetention env) as H2.
  unfold performBackup, performBackup_deferred, isInMaintenanceWindow,
    findLocalPool, createZFSSnapshot, getSnapshotPath, getPoolMountpoint,
    destroyZFSSnapshot, RunCommandContext.
  flag_blind_tac.
Qed.

Lemma flag_blind_assign_Config c : flag_blind (assign_Config c).
Proof. intros b m. split; [reflexivity|]. right. reflexivity. Qed.

Lemma flag_blind_Stop : flag_blind Stop.
Proof. unfold Stop. flag_blind_tac. Qed.

Lemma flag_blind_ensureKopiaCacheDataset env :
  flag_blind (ensureKopiaCacheDataset env).
Proof. unfold ensureKopiaCacheDataset, RunCommandContext. flag_blind_tac. Qed.

Lemma flag_blind_connectOrInitRepository env backend :
  flag_blind (connectOrInitRepository env backend).
Proof.
  unfold connectOrInitRepository, connectRepository, initRepository,
    connectS3Repository, initS3Repository, RunCommandContext.
  flag_blind_tac.
Qed.

Lemma flag_blind_configure env : flag_blind (configure env).
Proof.
  pose proof (flag_blind_ensureKopiaCacheDataset env) as H1.
  pose proof (flag_blind_connectOrInitRepository env) as H2.
  unfold configure. flag_blind_tac.
Qed.

Lemma flag_blind_Start env : flag_blind (Start env).
Proof.
  pose proof (flag_blind_configure env) as H1.
  unfold Start. flag_blind_tac.
Qed.

Lemma flag_blind_Update_apply env oldState newConfig :
  flag_blind (Update_apply env oldState newConfig).
Proof.
  pose proof (flag_blind_configure env) as H1.
  pose proof (flag_blind_Start env) as H2.
  pose proof flag_blind_assign_Config as H3.
  unfold Update_apply. flag_blind_tac.
Qed.

(** The stop that goes before the restore either clears the flag or
    leaves it alone. *)
Lemma restore_entry_with_InProgress newState b m :
  restore_entry newState (with_InProgress b m) = restore_entry newState m \/
  restore_entry newState (with_InProgress b m) =
    with_InProgress b (restore_entry newState m).
Proof.
  unfold restore_entry.
  change (Enabled (Config (kopia (with_InProgress b m))))
    with (Enabled (Config (kopia m))).
  destruct (Enabled (Config (kopia m)) && negb (Enabled (Config newState))).
  - apply flag_blind_Stop.
  - right. reflexivity.
Qed.

(** The record [Update] ends with and what it returns do not depend on
    the flag it is started with, but for the flag itself in the record
    when nothing on the way has written it. *)
Lemma Update_with_InProgress env newState b m :
  let (r1, m1) := Update env (ReqServiceKopia newState) (with_InProgress b m) in
  let (r2, m2) := Update env (ReqServiceKopia newState) m in
  r1 = r2 /\
  (m1 = m2 \/
   kopia m1 = kopia (with_InProgress b m2) /\
   exists before,
     trace m1 = (before ++ [Save (kopia m1)])%list /\
     trace m2 = (before ++ [Save (kopia m2)])%list).
Proof.
  assert (Last : forall (p1 p2 : error * Machine),
    fst p1 = fst p2 ->
    (snd p1 = snd p2 \/ snd p1 = with_InProgress b (snd p2)) ->
    let (r1, n1) :=
      (let (result, n) := p1 in
       (result, {| kopia := kopia n; trace := trace n ++ [Save (kopia n)] |})) in
    let (r2, n2) :=
      (let (result, n) := p2 in
       (result, {| kopia := kopia n; trace := trace n ++ [Save (kopia n)] |})) in
    r1 = r2 /\
    (n1 = n2 \/
     kopia n1 = kopia (with_InProgress b n2) /\
     exists before,
       trace n1 = (before ++ [Save (kopia n1)])%list /\
       trace n2 = (before ++ [Save (kopia n2)])%list)).
  { intros [r1 n1] [r2 n2] F S. simpl in F, S.
    split; [exact F|]. destruct S as [->| ->].
    - left. reflexivity.
    - right. split; [reflexivity|]. exists (trace n2). split; reflexivity. }
  assert (Old : forall c,
    Update_apply env (kopia (with_InProgress b m)) c =
    Update_apply env (kopia m) c) by reflexivity.
  pose proof (restore_entry_with_InProgress newState b m) as Entry.
  assert (T : triggers_restore newState (with_InProgress b m) =
              triggers_restore newState m) by reflexivity.
  unfold Update.
  destruct (triggers_restore newState m) eqn:Trig.
  - rewrite !Update_triggered by first [exact T | exact Trig].
    rewrite Old.
    assert (Hc : forall m1 m2,
      m1 = m2 \/ m1 = with_InProgress b m2 ->
      let c := fun m0 =>
        let (attempt, n) :=
          PerformRestore env (RestoreSnapshotID (Config newState)) m0 in
        match attempt with
        | Some e => (Some e, n)
        | None =>
            Update_apply env (kopia m)
              (set_RestoreSnapshotID "" (Config newState)) n
        end in
      fst (c m1) = fst (c m2) /\
      (snd (c m1) = snd (c m2) \/
       snd (c m1) = with_InProgress b (snd (c m2)))).
    { intros m1 m2 [->| ->]; cbv zeta; [auto|].
      destruct (flag_blind_PerformRestore env
                  (RestoreSnapshotID (Config newState)) b m2) as [F S].
      destruct (PerformRestore env _ (with_InProgress b m2)) as [a1 n1].
      destruct (PerformRestore env _ m2) as [a2 n2]. simpl in F, S. subst a2.
      destruct a1 as [e|].
      - simpl. auto.
      - destruct S as [->| ->]; [auto|]. apply flag_blind_Update_apply. }
    specialize (Hc _ _ Entry). cbv zeta in Hc. destruct Hc as [F S].
    destruct (PerformRestore env _ (restore_entry newState (with_InProgress b m)))
      as [a1 n1].
    destruct (PerformRestore env _ (restore_entry newState m)) as [a2 n2].
    apply (Last (match a1 with
                 | Some e => (Some e, n1)
                 | None => Update_apply env (kopia m)
                             (set_RestoreSnapshotID "" (Config newState)) n1
                 end)
                (match a2 with
                 | Some e => (Some e, n2)
                 | None => Update_apply env (kopia m)
                             (set_RestoreSnapshotID "" (Config newState)) n2
                 end)); assumption.
  - rewrite !Update_untriggered by first [exact T | exact Trig].
    rewrite Old.
    pose proof (flag_blind_Update_apply env (kopia m) (Config newState)) as Hc.
    apply Last; destruct Entry as [->| ->]; auto; apply Hc.
Qed.

(** A triggered update whose restore gets past its guards runs the same
    whatever the flag says. *)
Lemma triggered_Update_with_InProgress env newState b m :
  triggers_restore newState m = true ->
  RepositoryConnected (State (kopia m)) = true ->
  storage_PoolExists env (length (trace (restore_entry newState m))) "local" = true ->
  Update env (ReqServiceKopia newState) (with_InProgress b m) =
  Update env (ReqServiceKopia newState) m.
Proof.
  intros T C P.
  assert (Old : forall c,
    Update_apply env (kopia (with_InProgress b m)) c =
    Update_apply env (kopia m) c) by reflexivity.
  assert (C' : RepositoryConnected (State (kopia (restore_entry newState m))) = true).
  { unfold restore_entry.
    destruct (Enabled (Config (kopia m)) && negb (Enabled (Config newState)));
      [|exact C].
    unfold Stop. unfold_go. destruct (negb (Enabled (Config (kopia m))));
      simpl; exact C. }
  unfold Update. rewrite !Update_triggered by exact T. rewrite Old.
  destruct (restore_entry_with_InProgress newState b m) as [->| ->];
    [reflexivity|].
  rewrite (PerformRestore_with_InProgress env _ b _ C' P). reflexivity.
Qed.

(** C2, as the code has it: nothing reads [in_progress].  Run from a
    state with the flag forced to any value, [PerformRestore],
    [performBackup] and [Update] each return the same result and ask the
    same things of the outside as they do from the state itself, and end
    in the same state, up to the flag when nothing on the way has written
    it (a cycle that did not get past its own guards: the connected
    repository, the maintenance window for a backup, the pool); the
    record [Update] hands to [state.Save] is the one it ends with.  The
    trigger of line 71 does not depend on the flag; a restore that finds
    the repository connected and the pool in place, and an update that
    triggers such a restore, run their cycle whatever the flag says. *)
Theorem cycles_do_not_read_in_progress env snapshotID newState b m :
  (let (r1, m1) := PerformRestore env snapshotID (with_InProgress b m) in
   let (r2, m2) := PerformRestore env snapshotID m in
   r1 = r2 /\ trace m1 = trace m2 /\
   (m1 = m2 \/ m1 = with_InProgress b m2)) /\
  (let (r1, m1) := performBackup env (with_InProgress b m) in
   let (r2, m2) := performBackup env m in
   r1 = r2 /\ trace m1 = trace m2 /\
   (m1 = m2 \/ m1 = with_InProgress b m2)) /\
  (let (r1, m1) := Update env (ReqServiceKopia newState) (with_InProgress b m) in
   let (r2, m2) := Update env (ReqServiceKopia newState) m in
   r1 = r2 /\
   (m1 = m2 \/
    kopia m1 = kopia (with_InProgress b m2) /\
    exists before,
      trace m1 = (before ++ [Save (kopia m1)])%list /\
      trace m2 = (before ++ [Save (kopia m2)])%list)) /\
  (RepositoryConnected (State (kopia m)) = true ->
   storage_PoolExists env (length (trace m)) "local" = true ->
   PerformRestore env snapshotID (with_InProgress b m) =
   PerformRestore env snapshotID m) /\
  triggers_restore newState (with_InProgress b m) = triggers_restore newState m /\
  (triggers_restore newState m = true ->
   RepositoryConnected (State (kopia m)) = true ->
   storage_PoolExists env (length (trace (restore_entry newState m))) "local"
     = true ->
   Update env (ReqServiceKopia newState) (with_InProgress b m) =
   Update env (ReqServiceKopia newState) m).
Proof.
  split; [|split; [|split; [|split; [|split]]]].
  - destruct (flag_blind_PerformRestore env snapshotID b m) as [R S].
    destruct (PerformRestore env snapshotID (with_InProgress b m)) as [r1 m1].
    destruct (PerformRestore env snapshotID m) as [r2 m2]. simpl in R, S.
    repeat split; auto. destruct S as [->| ->]; reflexivity.
  - destruct (flag_blind_performBackup env b m) as [R S].
    destruct (performBackup env (with_InProgress b m)) as [r1 m1].
    destruct (performBackup env m) as [r2 m2]. simpl in R, S.
    repeat split; auto. destruct S as [->| ->]; reflexivity.
  - apply Update_with_InProgress.
  - apply PerformRestore_with_InProgress.
  - reflexivity.
  - apply triggered_Update_with_InProgress.
Qed.

(* ================================================================== *)
(** ** The safety snapshot *)
(* ================================================================== *)

Lemma split_at_none (s : string) : count_at s = 0%nat -> split_at s = [s].
Proof.
  induction s as [|c s IH]; simpl; [reflexivity|].
  destruct (Ascii.eqb c "@"); [discriminate|].
  intros H. rewrite IH by exact H. reflexivity.
Qed.

(** The name [PerformRestore] means to give the safety snapshot is a
    proper snapshot name. *)
Lemma safety_name_wellFormed (t : GoTime) :
  wellFormedSnapshotName (safety_name t) = true.
Proof.
  unfold wellFormedSnapshotName, safety_name.
  pose proof (count_at_Format_compact t) as H.
  generalize dependent (Format_compact t). intros stamp H.
  simpl. rewrite (split_at_none stamp H). reflexivity.
Qed.

(** C3, on the code: a restore that gets past its guards asks ZFS for
    exactly one snapshot, and the name it asks for is not the safety name
    it has just built but that name run through [createZFSSnapshot] as if
    it were a pool: [local@before-restore-<t1>@kopia-<t2>].  The safety
    name is a well-formed snapshot name; the name requested holds two '@'
    signs and is not. *)
Theorem safety_snapshot_requested_name env snapshotID m :
  RepositoryConnected (State (kopia m)) = true ->
  storage_PoolExists env (length (trace m)) "local" = true ->
  exists t1 t2,
    snapshots_requested
      (commands (since m (snd (PerformRestore env snapshotID m)))) =
      [requested_name t1 t2] /\
    wellFormedSnapshotName (safety_name t1) = true /\
    wellFormedSnapshotName (requested_name t1 t2) = false /\
    count_at (requested_name t1 t2) = 2%nat.
Proof.
  intros C P.
  apply (PerformRestore_snapshots env snapshotID m
           (fun l => exists t1 t2,
              l = [requested_name t1 t2] /\
              wellFormedSnapshotName (safety_name t1) = true /\
              wellFormedSnapshotName (requested_name t1 t2) = false /\
              count_at (requested_name t1 t2) = 2%nat) C P).
  intros t1 t2. exists t1, t2.
  split; [reflexivity|]. split; [apply safety_name_wellFormed|].
  split; [apply requested_name_malformed | apply requested_name_two_ats].
Qed.

(* ================================================================== *)
(** ** The service at rest *)
(* ================================================================== *)

Ltac at_rest_leaf :=
  unfold at_rest, checkpoints in *; simpl in *; intuition (auto 10).

Lemma Stop_at_rest m : at_rest (kopia m) -> at_rest (kopia (snd (Stop m))).
Proof. intros R. unfold Stop. unfold_go. run_go; at_rest_leaf. Qed.

Lemma PerformRestore_at_rest env snapshotID m :
  at_rest (kopia m) -> at_rest (kopia (snd (PerformRestore env snapshotID m))).
Proof.
  intros R. unfold PerformRestore, PerformRestore_deferred. unfold_go.
  run_go; at_rest_leaf.
Qed.

Lemma performBackup_at_rest env m :
  at_rest (kopia m) -> at_rest (kopia (snd (performBackup env m))).
Proof.
  intros R. unfold performBackup, performBackup_deferred. unfold_go.
  run_go; at_rest_leaf.
Qed.

Lemma configure_at_rest env m :
  at_rest (kopia m) -> at_rest (kopia (snd (configure env m))).
Proof.
  intros R.
  unfold configure, ensureKopiaCacheDataset, connectOrInitRepository,
    connectRepository, initRepository, connectS3Repository, initS3Repository.
  unfold_go. run_go; at_rest_leaf.
Qed.

Lemma Start_at_rest env m :
  at_rest (kopia m) -> at_rest (kopia (snd (Start env m))).
Proof.
  intros R. unfold Start, bind, get_kopia.
  destruct (negb (Enabled (Config (kopia m)))); [exact R|].
  apply configure_at_rest. exact R.
Qed.

Lemma Get_at_rest env m :
  at_rest (kopia m) -> at_rest (kopia (snd (Get env m))).
Proof.
  intros R. unfold Get, refreshSnapshots. unfold_go. run_go; at_rest_leaf.
Qed.

Lemma restore_entry_at_rest newState m :
  at_rest (kopia m) -> at_rest (kopia (restore_entry newState m)).
Proof.
  intros R. unfold restore_entry.
  destruct (Enabled (Config (kopia m)) && negb (Enabled (Config newState))).
  - apply Stop_at_rest. exact R.
  - exact R.
Qed.

Lemma Update_apply_at_rest env oldState newConfig m :
  at_rest (kopia m) ->
  at_rest (kopia (snd (Update_apply env oldState newConfig m))).
Proof.
  intros R. unfold Update_apply, bind, assign_Config, get_kopia.
  set (m1 := {| kopia := {| State := State (kopia m); Config := newConfig |};
                trace := trace m |}).
  assert (R1 : at_rest (kopia m1)) by exact R.
  destruct (negb (Enabled (Config oldState)) && Enabled newConfig).
  - pose proof (Start_at_rest env m1 R1) as HS.
    destruct (Start env m1) as [[e|] m2]; simpl in *; [exact HS|].
    destruct (Enabled (Config (kopia m2))); simpl.
    + apply configure_at_rest. exact HS.
    + exact HS.
  - unfold ret. simpl.
    destruct (Enabled newConfig); simpl; [|exact R].
    apply configure_at_rest. exact R1.
Qed.

Lemma Update_at_rest env req m :
  at_rest (kopia m) -> at_rest (kopia (snd (Update env req m))).
Proof.
  intros R. destruct req as [newState|ty]; [|exact R].
  unfold Update. destruct (triggers_restore newState m) eqn:T.
  - rewrite Update_triggered by exact T.
    pose proof (PerformRestore_at_rest env (RestoreSnapshotID (Config newState))
                  _ (restore_entry_at_rest newState m R)) as HR.
    destruct (PerformRestore env _ (restore_entry newState m)) as [[e|] m1];
      simpl in *; [exact HR|].
    pose proof (Update_apply_at_rest env (kopia m)
                  (set_RestoreSnapshotID "" (Config newState)) m1 HR) as HA.
    destruct (Update_apply env (kopia m) _ m1) as [r m2]. exact HA.
  - rewrite Update_untriggered by exact T.
    pose proof (Update_apply_at_rest env (kopia m) (Config newState) _
                  (restore_entry_at_rest newState m R)) as HA.
    destruct (Update_apply env (kopia m) _ (restore_entry newState m))
      as [r m2]. exact HA.
Qed.

Lemma reachable_at_rest env m : reachable env m -> at_rest (kopia m).
Proof.
  induction 1 as [|m op R IH].
  - unfold at_rest, checkpoints. simpl. auto.
  - destruct op; cbn [run].
    + apply Update_at_rest; exact IH.
    + apply Get_at_rest; exact IH.
    + apply Start_at_rest; exact IH.
    + apply Stop_at_rest; exact IH.
    + apply performBackup_at_rest; exact IH.
Qed.

(** C5, as the code has it: between two operations [in_progress] is
    false and [progress] is one of 0, 20, 25, 30, 40, 50, 70 and 100, the
    checkpoint at which the last cycle ended or was abandoned; and the
    values a backup or a restore cycle writes to [progress] never
    decrease. *)
Theorem progress_at_rest_and_in_a_cycle env :
  (forall m, reachable env m ->
     InProgress (State (kopia m)) = false /\
     In (Progress (State (kopia m))) [0; 20; 25; 30; 40; 50; 70; 100]) /\
  (forall m,
     nondecreasing
       (progress_writes (since m (snd (performBackup env m)))) = true) /\
  (forall snapshotID m,
     nondecreasing
       (progress_writes (since m (snd (PerformRestore env snapshotID m)))) = true).
Proof.
  split; [|split].
  - intros m R. exact (reachable_at_rest env m R).
  - apply performBackup_progress.
  - intros. apply PerformRestore_progress.
Qed.

(* ================================================================== *)
(** ** How a backup cycle ends *)
(* ================================================================== *)

Ltac backup_success_leaf :=
  cbn [fst snd kopia trace State Config];
  intros H; try discriminate H;
  repeat match goal with |- _ /\ _ => split end;
  try reflexivity;
  eexists; eexists;
  (split; [first [reflexivity | rewrite <- app_assoc; reflexivity]|]);
  (split; [reflexivity|]);
  first [left; reflexivity | right; eexists; reflexivity].

(** C8, what the code does: a backup cycle that succeeds ends with
    [in_progress] false, [progress] at 100, the final status, and
    [last_backup] set to the time read once the cleanup step is over, the
    last thing the cycle does but for a second attempt at destroying the
    snapshot.  [last_backup_window], which the API describes as the
    identifier of the maintenance window of the last backup, is left as
    it was: nothing in the service writes it. *)
Theorem successful_backup_bookkeeping env m :
  fst (performBackup env m) = None ->
  let m' := snd (performBackup env m) in
  InProgress (State (kopia m')) = false /\
  Progress (State (kopia m')) = 100 /\
  LastStatus (State (kopia m')) = "Backup completed successfully" /\
  (exists before after,
     trace m' = (before ++ Now :: after)%list /\
     LastBackup (State (kopia m')) = time_Now env (length before) /\
     (after = [] \/
      exists name, after = [RunCommand "zfs" ["destroy"; name]])) /\
  LastBackupWindow (State (kopia m')) = LastBackupWindow (State (kopia m)).
Proof.
  cbv zeta.
  unfold performBackup, performBackup_deferred. unfold_go.
  run_go; backup_success_leaf.
Qed.

Ltac backup_failure_leaf :=
  cbn [fst snd kopia trace State Config];
  intros H; try discriminate H;
  injection H as <-;
  repeat match goal with
  | E : negb _ = true |- _ => apply negb_true_iff in E
  end;
  repeat match goal with
  | |- context [time_Now ?env ?i] =>
      let t := fresh "t" in generalize (time_Now env i); intros t
  end;
  first
    [ left; solve [auto]
    | right; left;
      solve [repeat split; trace_norm; simpl; auto]
    | right; right; left;
      solve [split; [reflexivity|]; split; [reflexivity|];
             eexists; eexists; split; [reflexivity|];
             trace_norm; reflexivity]
    | right; right; right;
      solve [split; [reflexivity|]; split; [simpl; auto|];
             eexists; eexists; split; [trace_norm; reflexivity|];
             reflexivity] ].

(** C4, as the code has it.  A backup cycle that fails fails in one of
    four ways.  The repository is not connected: nothing is changed and
    nothing is recorded, [last_status] included.  The time is outside the
    maintenance windows, or the pool is missing: [last_status] says so,
    [in_progress] and [progress] are left as they were and no command was
    run.  The ZFS snapshot could not be created: [in_progress] is false,
    [last_status] holds the error, and the failed request is the last
    thing the cycle did.  The snapshot was created and its path or the
    backup engine failed: [in_progress] is false, [last_status] holds the
    error, and the last thing the cycle did is to ask for the destruction
    of the one snapshot it had requested. *)
Theorem failed_backup_outcome env m e :
  fst (performBackup env m) = Some e ->
  let m' := snd (performBackup env m) in
  (RepositoryConnected (State (kopia m)) = false /\
   e = "repository not connected" /\ m' = m) \/
  (InProgress (State (kopia m')) = InProgress (State (kopia m)) /\
   Progress (State (kopia m')) = Progress (State (kopia m)) /\
   (LastStatus (State (kopia m')) = "Outside maintenance window" /\
    e = "outside maintenance window" \/
    LastStatus (State (kopia m')) = "Failed to find local pool: " ++ e) /\
   commands (since m m') = []) \/
  (InProgress (State (kopia m')) = false /\
   LastStatus (State (kopia m')) = "Failed to create snapshot: " ++ e /\
   exists before name,
     trace m' = (before ++ [RunCommand "zfs" ["snapshot"; name]])%list /\
     snapshots_requested (commands (since m m')) = [name]) \/
  (InProgress (State (kopia m')) = false /\
   (LastStatus (State (kopia m')) = "Failed to get snapshot path: " ++ e \/
    LastStatus (State (kopia m')) = "Failed to create Kopia snapshot: " ++ e) /\
   exists before name,
     snapshots_requested (commands (since m m')) = [name] /\
     trace m' = (before ++ [RunCommand "zfs" ["destroy"; name]])%list).
Proof.
  cbv zeta.
  unfold performBackup, performBackup_deferred. unfold_go.
  run_go; backup_failure_leaf.
Qed.

(* ================================================================== *)
(** ** Partial operations of Go that the service never reaches *)
(* ================================================================== *)

(** A backend that passed [validateBackendConfig] is an S3 backend with
    its configuration in place: the repository code never dereferences a
    nil pointer. *)
Lemma validated_backend_has_S3 (backend : ServiceKopiaBackendConfig) :
  validateBackendConfig backend = None ->
  Type_ backend = "s3" /\ exists s3, S3 backend = Some s3.
Proof.
  unfold validateBackendConfig.
  destruct (String.eqb_spec (Type_ backend) "s3") as [E|E]; [|discriminate].
  destruct (S3 backend) as [s3|]; [|discriminate].
  intros _. split; [exact E | exists s3; reflexivity].
Qed.

(** The names [createZFSSnapshot] returns split in two pieces at least. *)
Lemma backup_snapshot_name_splits (poolName stamp : string) :
  (2 <= length (split_at (poolName ++ "@kopia-" ++ stamp)))%nat.
Proof.
  rewrite split_at_length, count_at_app. simpl. lia.
Qed.

(* ================================================================== *)
(** ** The claims on the sample system *)
(* ================================================================== *)

(** The restore of k123 is asked of the service right after it was
    enabled, on a system whose [rsync] fails: the restore fails and the
    stored identifier is empty. *)
Lemma restore_id_empty_after_triggered_update_witness :
  reachable Scenario.rsync_down Scenario.enabled_rsync_down /\
  triggers_restore (Sample.incoming "k123") Scenario.enabled_rsync_down = true /\
  (let attempt :=
     fst (PerformRestore Scenario.rsync_down
            (RestoreSnapshotID (Config (Sample.incoming "k123")))
            (restore_entry (Sample.incoming "k123")
               Scenario.enabled_rsync_down)) in
   let m' :=
     snd (Update Scenario.rsync_down
            (ReqServiceKopia (Sample.incoming "k123"))
            Scenario.enabled_rsync_down) in
   RestoreSnapshotID (Config (kopia m')) = "" /\
   (attempt = None \/
    exists e, attempt = Some e /\
      fst (Update Scenario.rsync_down
             (ReqServiceKopia (Sample.incoming "k123"))
             Scenario.enabled_rsync_down) = Some e) /\
   (exists before, trace m' = (before ++ [Save (kopia m')])%list)).
Proof.
  assert (R : reachable Scenario.rsync_down Scenario.enabled_rsync_down).
  { unfold Scenario.enabled_rsync_down.
    apply reachable_step. apply reachable_boot. }
  split; [exact R|]. split; [reflexivity|].
  apply (restore_id_empty_after_triggered_update Scenario.rsync_down
           (Sample.incoming "k123") Scenario.enabled_rsync_down R).
  reflexivity.
Defined.

(** C1 on the sample system: the restore of k123 asked of the service
    right after it was enabled, once with everything working and once
    with [rsync] failing.  The stored identifier is empty both times. *)
Lemma restore_id_on_sample :
  fst (Update Sample.calm (Sample.request "k123") Scenario.enabled) = None /\
  RestoreSnapshotID (Config (kopia Scenario.restored_once)) = "" /\
  fst (Update Scenario.rsync_down (Sample.request "k123")
         Scenario.enabled_rsync_down) =
    Some "failed to apply restored data: exit status 1" /\
  RestoreSnapshotID (Config (kopia Scenario.restore_failed_once)) = "".
Proof. vm_compute. repeat split. Qed.

(** C2 fails as stated: a cycle is marked as running, the repository is
    connected, and an update asks for a restore.  The restore cycle runs
    from start to end: it stops the services, writes its own progress from
    0 to 100 and clears the flag of the cycle that was running.  A backup
    asked for in the same state runs as well. *)
Lemma restore_starts_while_a_cycle_runs :
  InProgress (State (kopia Sample.busy)) = true /\
  triggers_restore (Sample.incoming "k123") Sample.busy = true /\
  fst (Update Sample.calm (Sample.request "k123") Sample.busy) = None /\
  existsb stops
    (since Sample.busy
       (snd (Update Sample.calm (Sample.request "k123") Sample.busy))) = true /\
  progress_writes
    (since Sample.busy
       (snd (Update Sample.calm (Sample.request "k123") Sample.busy))) =
    [0; 20; 30; 40; 50; 70; 80; 100] /\
  InProgress
    (State (kopia (snd (Update Sample.calm (Sample.request "k123")
                          Sample.busy)))) = false /\
  progress_writes
    (since Sample.busy (snd (performBackup Sample.calm Sample.busy))) =
    [0; 25; 75; 90; 100].
Proof. vm_compute. repeat split. Qed.

(** A connected service with its pool, a restore asked for: the restore
    and the update that asks for it run the same with the flag set. *)
Lemma cycles_do_not_read_in_progress_witness :
  RepositoryConnected (State (kopia Scenario.enabled)) = true /\
  storage_PoolExists Sample.calm (length (trace Scenario.enabled)) "local" = true /\
  triggers_restore (Sample.incoming "k123") Scenario.enabled = true /\
  storage_PoolExists Sample.calm
    (length (trace (restore_entry (Sample.incoming "k123") Scenario.enabled)))
    "local" = true /\
  PerformRestore Sample.calm "k123" (with_InProgress true Scenario.enabled) =
    PerformRestore Sample.calm "k123" Scenario.enabled /\
  Update Sample.calm (ReqServiceKopia (Sample.incoming "k123"))
    (with_InProgress true Scenario.enabled) =
    Update Sample.calm (ReqServiceKopia (Sample.incoming "k123")) Scenario.enabled.
Proof.
  destruct (cycles_do_not_read_in_progress Sample.calm "k123"
              (Sample.incoming "k123") true Scenario.enabled)
    as (_ & _ & _ & HR & _ & HU).
  split; [reflexivity|]. split; [reflexivity|].
  split; [reflexivity|]. split; [reflexivity|].
  split; [apply HR | apply HU]; reflexivity.
Defined.

(** A restore on the sample system gets past its guards. *)
Lemma safety_snapshot_requested_name_witness :
  RepositoryConnected (State (kopia Sample.connected)) = true /\
  storage_PoolExists Sample.calm (length (trace Sample.connected)) "local" = true /\
  exists t1 t2,
    snapshots_requested
      (commands (since Sample.connected
                   (snd (PerformRestore Sample.calm "k123" Sample.connected)))) =
      [requested_name t1 t2] /\
    wellFormedSnapshotName (safety_name t1) = true /\
    wellFormedSnapshotName (requested_name t1 t2) = false /\
    count_at (requested_name t1 t2) = 2%nat.
Proof.
  split; [reflexivity|]. split; [reflexivity|].
  apply (safety_snapshot_requested_name Sample.calm "k123" Sample.connected);
    reflexivity.
Defined.

(** C3 on the sample system: the one snapshot a restore asks ZFS for. *)
Lemma safety_snapshot_on_sample :
  snapshots_requested
    (commands (since Sample.connected
                 (snd (PerformRestore Sample.calm "k123" Sample.connected)))) =
    ["local@before-restore-20240115-103000@kopia-20240115-103000"] /\
  wellFormedSnapshotName
    "local@before-restore-20240115-103000@kopia-20240115-103000" = false /\
  wellFormedSnapshotName "local@before-restore-20240115-103000" = true.
Proof. vm_compute. repeat split. Qed.

(** C4 fails as stated: the repository is not connected, the backup
    fails on its first check, and [last_status] is what it was: the error
    returned is not recorded in it. *)
Lemma disconnected_backup_records_nothing :
  fst (performBackup Sample.calm Sample.disconnected) =
    Some "repository not connected" /\
  LastStatus (State (kopia (snd (performBackup Sample.calm Sample.disconnected)))) =
    "Failed to connect or initialize repository: exit status 1" /\
  LastStatus (State (kopia (snd (performBackup Sample.calm Sample.disconnected)))) =
    LastStatus (State (kopia Sample.disconnected)).
Proof. vm_compute. repeat split. Qed.

(** The backup engine is down: the cycle fails once the snapshot exists. *)
Lemma failed_backup_outcome_witness :
  fst (performBackup Sample.engine_down Sample.connected) =
    Some "exit status 1" /\
  (let m' := snd (performBackup Sample.engine_down Sample.connected) in
   (RepositoryConnected (State (kopia Sample.connected)) = false /\
    "exit status 1" = "repository not connected" /\ m' = Sample.connected) \/
   (InProgress (State (kopia m')) = InProgress (State (kopia Sample.connected)) /\
    Progress (State (kopia m')) = Progress (State (kopia Sample.connected)) /\
    (LastStatus (State (kopia m')) = "Outside maintenance window" /\
     "exit status 1" = "outside maintenance window" \/
     LastStatus (State (kopia m')) =
       "Failed to find local pool: " ++ "exit status 1") /\
    commands (since Sample.connected m') = []) \/
   (InProgress (State (kopia m')) = false /\
    LastStatus (State (kopia m')) =
      "Failed to create snapshot: " ++ "exit status 1" /\
    exists before name,
      trace m' = (before ++ [RunCommand "zfs" ["snapshot"; name]])%list /\
      snapshots_requested (commands (since Sample.connected m')) = [name]) \/
   (InProgress (State (kopia m')) = false /\
    (LastStatus (State (kopia m')) =
       "Failed to get snapshot path: " ++ "exit status 1" \/
     LastStatus (State (kopia m')) =
       "Failed to create Kopia snapshot: " ++ "exit status 1") /\
    exists before name,
      snapshots_requested (commands (since Sample.connected m')) = [name] /\
      trace m' = (before ++ [RunCommand "zfs" ["destroy"; name]])%list)).
Proof.
  split; [reflexivity|].
  apply (failed_backup_outcome Sample.engine_down Sample.connected
           "exit status 1").
  reflexivity.
Defined.

(** C5 fails as stated: the service is enabled, a backup runs and the
    backup engine fails.  The service is then at rest, [in_progress] is
    false, and [progress] is 25, neither 0 nor 100. *)
Lemma progress_stays_where_the_cycle_failed :
  reachable Sample.engine_down Sample.after_failed_backup /\
  InProgress (State (kopia Sample.after_failed_backup)) = false /\
  Progress (State (kopia Sample.after_failed_backup)) = 25 /\
  ~ (Progress (State (kopia Sample.after_failed_backup)) = 0 \/
     Progress (State (kopia Sample.after_failed_backup)) = 100).
Proof.
  split.
  - unfold Sample.after_failed_backup.
    apply reachable_step. apply reachable_step. apply reachable_boot.
  - vm_compute. repeat split. intros [H|H]; discriminate H.
Qed.

(** The service after it was enabled and a backup has run. *)
Lemma progress_at_rest_and_in_a_cycle_witness :
  reachable Sample.calm Sample.after_backup /\
  InProgress (State (kopia Sample.after_backup)) = false /\
  In (Progress (State (kopia Sample.after_backup)))
     [0; 20; 25; 30; 40; 50; 70; 100].
Proof.
  assert (R : reachable Sample.calm Sample.after_backup).
  { unfold Sample.after_backup.
    apply reachable_step. apply reachable_step. apply reachable_boot. }
  split; [exact R|].
  apply (proj1 (progress_at_rest_and_in_a_cycle Sample.calm)
           Sample.after_backup R).
Defined.

(** A restore asked of a service whose repository is not connected. *)
Lemma restore_needs_connected_repository_witness :
  RepositoryConnected (State (kopia Sample.disconnected)) = false /\
  (let (result, m') := PerformRestore Sample.calm "k123" Sample.disconnected in
   result = Some "repository not connected" /\
   m' = Sample.disconnected /\
   since Sample.disconnected m' = [] /\
   existsb stops (since Sample.disconnected m') = false).
Proof.
  split; [reflexivity|].
  apply (restore_needs_connected_repository Sample.calm "k123"
           Sample.disconnected).
  reflexivity.
Defined.

(** C7 fails as stated: the service is enabled and the restore of k123
    is asked for twice in a row, with the same request.  The second
    request stops the services and runs the whole restore again, after
    the first restore has succeeded; where [rsync] fails it runs it
    again up to that failure, after the first restore has failed. *)
Lemma identical_update_restores_again :
  reachable Sample.calm Scenario.restored_once /\
  fst (Update Sample.calm (Sample.request "k123") Scenario.enabled) = None /\
  (let again :=
     since Scenario.restored_once
       (snd (Update Sample.calm (Sample.request "k123")
               Scenario.restored_once)) in
   existsb stops again = true /\
   progress_writes again = [0; 20; 30; 40; 50; 70; 80; 100] /\
   commands again =
     [("zfs", ["snapshot";
               "local@before-restore-20240115-103000@kopia-20240115-103000"]);
      ("zfs", ["get"; "-H"; "-o"; "value"; "mountpoint"; "local"]);
      ("kopia", ["snapshot"; "restore"; "k123"; "/local/.kopia-restore-temp"]);
      ("rsync", ["-a"; "--delete"; "/local/.kopia-restore-temp/"; "/local/"]);
      ("kopia", ["repository"; "connect"; "s3"; "--bucket"; "backups";
                 "--endpoint"; "minio.example.com:9000"; "--disable-tls";
                 "--access-key"; "AKIAEXAMPLE"; "--secret-access-key";
                 "secret"; "--password"; "hunter2"])]) /\
  reachable Scenario.rsync_down Scenario.restore_failed_once /\
  fst (Update Scenario.rsync_down (Sample.request "k123")
         Scenario.enabled_rsync_down) =
    Some "failed to apply restored data: exit status 1" /\
  (let again :=
     since Scenario.restore_failed_once
       (snd (Update Scenario.rsync_down (Sample.request "k123")
               Scenario.restore_failed_once)) in
   existsb stops again = true /\
   progress_writes again = [0; 20; 30; 40; 50; 70] /\
   commands again =
     [("zfs", ["snapshot";
               "local@before-restore-20240115-103000@kopia-20240115-103000"]);
      ("zfs", ["get"; "-H"; "-o"; "value"; "mountpoint"; "local"]);
      ("kopia", ["snapshot"; "restore"; "k123"; "/local/.kopia-restore-temp"]);
      ("rsync", ["-a"; "--delete"; "/local/.kopia-restore-temp/"; "/local/"])]).
Proof.
  split; [|split; [|split]]; [| | |split; [|split]].
  - unfold Scenario.restored_once, Scenario.enabled.
    apply reachable_step. apply reachable_step. apply reachable_boot.
  - vm_compute. reflexivity.
  - vm_compute. repeat split.
  - unfold Scenario.restore_failed_once, Scenario.enabled_rsync_down.
    apply reachable_step. apply reachable_step. apply reachable_boot.
  - vm_compute. reflexivity.
  - vm_compute. repeat split.
Qed.

(** The service right after it was enabled: the same configuration sent
    again starts no restore, whatever is put in the place of
    [PerformRestore]; the restore of k123 is run when it is asked for,
    and run again when it is asked for again. *)
Lemma restore_runs_whenever_id_is_set_witness :
  (RestoreSnapshotID (Config (Sample.incoming "")) =
     RestoreSnapshotID (Config (kopia Scenario.enabled)) /\
   forall restore : string -> M error,
     UpdateWith Sample.calm restore (ReqServiceKopia (Sample.incoming ""))
       Scenario.enabled =
     Update Sample.calm (ReqServiceKopia (Sample.incoming "")) Scenario.enabled) /\
  reachable Sample.calm Scenario.enabled /\
  RestoreSnapshotID (Config (Sample.incoming "k123")) <> "" /\
  (let runs_restore := fun m0 : Machine =>
     forall restore : string -> M error,
       UpdateWith Sample.calm restore
         (ReqServiceKopia (Sample.incoming "k123")) m0 =
         (let (attempt, m1) :=
            restore "k123" (restore_entry (Sample.incoming "k123") m0) in
          let (result, m2) :=
            match attempt with
            | Some e => (Some e, m1)
            | None =>
                Update_apply Sample.calm (kopia m0)
                  (set_RestoreSnapshotID "" (Config (Sample.incoming "k123")))
                  m1
            end in
          (result,
           {| kopia := kopia m2; trace := trace m2 ++ [Save (kopia m2)] |})) in
   runs_restore Scenario.enabled /\
   runs_restore
     (snd (Update Sample.calm (ReqServiceKopia (Sample.incoming "k123"))
             Scenario.enabled))).
Proof.
  assert (R : reachable Sample.calm Scenario.enabled).
  { unfold Scenario.enabled. apply reachable_step. apply reachable_boot. }
  assert (Hset : RestoreSnapshotID (Config (Sample.incoming "k123")) <> "")
    by discriminate.
  split; [|split; [exact R|split; [exact Hset|]]].
  - split; [reflexivity|].
    apply (proj1 (restore_runs_whenever_id_is_set Sample.calm
                    (Sample.incoming "") Scenario.enabled)).
    reflexivity.
  - exact (proj2 (proj2 (restore_runs_whenever_id_is_set Sample.calm
                           (Sample.incoming "k123") Scenario.enabled) R)
             Hset).
Defined.

(** C8 on the sample system: one maintenance window, w1, is configured
    and active, the backup frequency is empty, the service has just been
    enabled and the backup cycle succeeds; [last_backup_window] is still
    empty afterwards, not w1. *)
Lemma successful_backup_leaves_window_unset :
  reachable Sample.windowed Scenario.enabled_windowed /\
  BackupFrequency (Config (kopia Scenario.enabled_windowed)) = "" /\
  map WindowID (MaintenanceWindows Sample.windowed) = ["w1"] /\
  (forall i, IsCurrentlyActive Sample.windowed i Sample.window1 = true) /\
  fst (performBackup Sample.windowed Scenario.enabled_windowed) = None /\
  LastBackupWindow
    (State (kopia (snd (performBackup Sample.windowed
                          Scenario.enabled_windowed)))) = "" /\
  LastBackupWindow
    (State (kopia (snd (performBackup Sample.windowed
                          Scenario.enabled_windowed)))) <> "w1".
Proof.
  split.
  - unfold Scenario.enabled_windowed.
    apply reachable_step. apply reachable_boot.
  - vm_compute. repeat split. discriminate.
Qed.

(** A backup on the sample system succeeds. *)
Lemma successful_backup_bookkeeping_witness :
  fst (performBackup Sample.calm Sample.connected) = None /\
  (let m' := snd (performBackup Sample.calm Sample.connected) in
   InProgress (State (kopia m')) = false /\
   Progress (State (kopia m')) = 100 /\
   LastStatus (State (kopia m')) = "Backup completed successfully" /\
   (exists before after,
      trace m' = (before ++ Now :: after)%list /\
      LastBackup (State (kopia m')) = time_Now Sample.calm (length before) /\
      (after = [] \/
       exists name, after = [RunCommand "zfs" ["destroy"; name]])) /\
   LastBackupWindow (State (kopia m')) =
     LastBackupWindow (State (kopia Sample.connected))).
Proof.
  split; [reflexivity|].
  apply (successful_backup_bookkeeping Sample.calm Sample.connected).
  reflexivity.
Defined.

(** A freshly created service has no retention policy. *)
Lemma empty_retention_expires_nothing_witness :
  Retention (Config (kopia Sample.boot)) = zero_retention /\
  applyRetention Sample.calm Sample.boot = (None, Sample.boot) /\
  commands (since Sample.boot (snd (applyRetention Sample.calm Sample.boot))) = [].
Proof.
  split; [reflexivity|].
  apply (empty_retention_expires_nothing Sample.calm Sample.boot).
  reflexivity.
Defined.

(** The restore of k123 fails on a service that is not connected. *)
Lemma failed_restore_keeps_configuration_witness :
  triggers_restore (Sample.incoming "k123") Sample.stale = true /\
  fst (PerformRestore Sample.calm
         (RestoreSnapshotID (Config (Sample.incoming "k123")))
         (restore_entry (Sample.incoming "k123") Sample.stale)) =
    Some "repository not connected" /\
  (let (result, m') :=
     Update Sample.calm (ReqServiceKopia (Sample.incoming "k123")) Sample.stale in
   result = Some "repository not connected" /\
   Config (kopia m') = Config (kopia Sample.stale) /\
   exists before, trace m' = (before ++ [Save (kopia m')])%list).
Proof.
  split; [reflexivity|]. split; [reflexivity|].
  apply (failed_restore_keeps_configuration Sample.calm
           (Sample.incoming "k123") Sample.stale "repository not connected");
    reflexivity.
Defined.

(* ================================================================== *)
(** ** Configuring the repository *)
(* ================================================================== *)

(** The backend configurations [validateBackendConfig] accepts are the S3
    ones with an endpoint, a bucket and both keys; the region is free. *)
Theorem validateBackendConfig_accepts (backend : ServiceKopiaBackendConfig) :
  validateBackendConfig backend = None <->
  Type_ backend = "s3" /\
  exists s3, S3 backend = Some s3 /\
    Endpoint s3 <> "" /\ Bucket s3 <> "" /\
    AccessKey s3 <> "" /\ SecretKey s3 <> "".
Proof.
  unfold validateBackendConfig. split.
  - destruct (String.eqb_spec (Type_ backend) "s3") as [E|E]; [|discriminate].
    destruct (S3 backend) as [s3|]; [|discriminate].
    destruct (String.eqb_spec (Endpoint s3) ""); [discriminate|].
    destruct (String.eqb_spec (Bucket s3) ""); [discriminate|].
    destruct (String.eqb_spec (AccessKey s3) ""); [discriminate|].
    destruct (String.eqb_spec (SecretKey s3) ""); [discriminate|].
    intros _. split; [exact E|]. exists s3. auto.
  - intros [E (s3 & -> & H1 & H2 & H3 & H4)].
    rewrite E. simpl.
    apply String.eqb_neq in H1, H2, H3, H4.
    rewrite H1, H2, H3, H4. reflexivity.
Qed.

Lemma since_kept (m : Machine) (k : ServiceKopia) :
  since m {| kopia := k; trace := trace m |} = [].
Proof.
  unfold since. simpl. induction (trace m) as [|e l IH]; simpl; auto.
Qed.

Ltac unfold_configure :=
  unfold configure, ensureKopiaCacheDataset, connectOrInitRepository,
    connectRepository, initRepository, connectS3Repository, initS3Repository.

(** [configure] ends in one of four ways.  It succeeds: the repository is
    marked connected.  The backend is invalid: the repository is marked
    not connected, the status says why, and nothing was asked of the
    outside.  The cache dataset could not be created: the record is left
    untouched, [repository_connected] included.  Connecting and creating
    both failed: the repository is marked not connected and the status
    holds the error of the creation.  In no case are the configuration,
    the progress fields or the backup times touched. *)
Theorem configure_outcome env m :
  let (result, m') := configure env m in
  match result with
  | None =>
      validateBackendConfig (Backend (Config (kopia m))) = None /\
      RepositoryConnected (State (kopia m')) = true /\
      LastStatus (State (kopia m')) = "Repository connected"
  | Some e =>
      (validateBackendConfig (Backend (Config (kopia m))) = Some e /\
       RepositoryConnected (State (kopia m')) = false /\
       LastStatus (State (kopia m')) = "Backend configuration invalid: " ++ e /\
       since m m' = []) \/
      (kopia m' = kopia m /\ commands (since m m') = [] /\
       exists cause,
         e = "failed to ensure Kopia cache dataset: " ++
             "failed to create Kopia cache dataset: " ++ cause) \/
      (validateBackendConfig (Backend (Config (kopia m))) = None /\
       RepositoryConnected (State (kopia m')) = false /\
       LastStatus (State (kopia m')) =
         "Failed to connect or initialize repository: " ++ e)
  end /\
  Config (kopia m') = Config (kopia m) /\
  InProgress (State (kopia m')) = InProgress (State (kopia m)) /\
  Progress (State (kopia m')) = Progress (State (kopia m)) /\
  LastBackup (State (kopia m')) = LastBackup (State (kopia m)) /\
  AvailableSnapshots (State (kopia m')) = AvailableSnapshots (State (kopia m)).
Proof.
  unfold_configure. unfold_go.
  run_go; trace_norm; rewrite ?since_kept; simpl;
    (split; [| repeat split; reflexivity]);
    first
      [ solve [repeat split; auto]
      | left; solve [repeat split; auto]
      | right; left; split; [destruct m as [[? ?] ?]; reflexivity|];
        split; [reflexivity|]; eexists; reflexivity
      | right; right; solve [repeat split; auto] ].
Qed.

(** With a password and an S3 backend, [connectOrInitRepository] first
    tries to connect.  If that succeeds it is done: no repository is
    created.  Only if it fails does it create one, at the same place and
    with the same credentials and password, and its result is the one of
    the creation. *)
Theorem repository_created_only_after_failed_connect env backend s3 m :
  Type_ backend = "s3" ->
  S3 backend = Some s3 ->
  RepositoryPassword (Config (kopia m)) <> "" ->
  let arguments :=
    repository_arguments s3 (RepositoryPassword (Config (kopia m))) in
  let connect := "repository" :: "connect" :: arguments in
  let create := "repository" :: "create" :: arguments in
  let (result, m') := connectOrInitRepository env backend m in
  kopia m' = kopia m /\
  match snd (subprocess_RunCommandContext env (length (trace m)) "kopia" connect) with
  | None =>
      result = None /\ since m m' = [RunCommand "kopia" connect]
  | Some _ =>
      since m m' = [RunCommand "kopia" connect; RunCommand "kopia" create] /\
      result =
        match snd (subprocess_RunCommandContext env (S (length (trace m)))
                     "kopia" create) with
        | None => None
        | Some e => Some ("failed to create repository: " ++ e)
        end
  end.
Proof.
  intros T S P. apply String.eqb_neq in P.
  unfold connectOrInitRepository, connectRepository, initRepository,
    connectS3Repository, initS3Repository, repository_arguments.
  unfold_go. rewrite T, S. simpl. rewrite P. simpl.
  destruct (String.eqb (Region s3) ""); simpl;
    match goal with
    | |- context [subprocess_RunCommandContext env (length (trace m)) ?n ?a] =>
        destruct (subprocess_RunCommandContext env (length (trace m)) n a)
          as [out [e|]]
    end; simpl; rewrite ?P; simpl;
    rewrite ?length_app, ?Nat.add_1_r; simpl;
    try match goal with
    | |- context [subprocess_RunCommandContext env ?i ?n ?a] =>
        destruct (subprocess_RunCommandContext env i n a) as [out2 [e2|]]
    end; simpl; trace_norm; repeat split; reflexivity.
Qed.

(** Without a repository password [configure] never succeeds and never
    runs [kopia]: neither a connection nor a creation is attempted. *)
Theorem configure_needs_password env m :
  RepositoryPassword (Config (kopia m)) = "" ->
  fst (configure env m) <> None /\
  commands (since m (snd (configure env m))) = [].
Proof.
  intros P. unfold_configure. unfold_go.
  run_go;
    try match goal with
    | E : String.eqb (RepositoryPassword _) "" = false |- _ =>
        simpl in E; rewrite P in E; discriminate E
    end;
    trace_norm; rewrite ?since_kept; simpl; split;
    try discriminate; reflexivity.
Qed.

(* ================================================================== *)
(** ** Configuration updates and status reads *)
(* ================================================================== *)

(** [Update] takes the configuration of its request and nothing else: the
    state a request carries has no effect. *)
Theorem Update_ignores_incoming_state env a b m :
  Config a = Config b ->
  Update env (ReqServiceKopia a) m = Update env (ReqServiceKopia b) m.
Proof.
  intros H. unfold Update, UpdateWith. rewrite H. reflexivity.
Qed.

Lemma configure_connects env m :
  fst (configure env m) = None ->
  RepositoryConnected (State (kopia (snd (configure env m)))) = true /\
  LastStatus (State (kopia (snd (configure env m)))) = "Repository connected".
Proof.
  unfold_configure. unfold_go.
  run_go; cbn [fst snd]; intros H; try discriminate H; split; reflexivity.
Qed.

Lemma Update_apply_connected env oldState newConfig m :
  fst (Update_apply env oldState newConfig m) = None ->
  Enabled newConfig = true ->
  RepositoryConnected
    (State (kopia (snd (Update_apply env oldState newConfig m)))) = true /\
  LastStatus
    (State (kopia (snd (Update_apply env oldState newConfig m)))) =
    "Repository connected".
Proof.
  unfold Update_apply, bind, assign_Config, get_kopia.
  set (m1 := {| kopia := {| State := State (kopia m); Config := newConfig |};
                trace := trace m |}).
  intros R En.
  assert (finish : forall m2,
            Config (kopia m2) = newConfig ->
            fst (configure env m2) = None ->
            RepositoryConnected (State (kopia (snd (configure env m2)))) = true /\
            LastStatus (State (kopia (snd (configure env m2)))) =
              "Repository connected").
  { intros m2 _ F. apply configure_connects. exact F. }
  destruct (negb (Enabled (Config oldState)) && Enabled newConfig).
  - pose proof (Start_Config env m1) as HS.
    destruct (Start env m1) as [[e|] m2]; simpl in *; [discriminate|].
    rewrite HS, En in *. apply finish; [exact HS | exact R].
  - unfold ret in *. simpl in *. rewrite En in *.
    apply finish; [reflexivity | exact R].
Qed.

(** When [Update] returns without error, the stored configuration is the
    incoming one, with the restore identifier cleared if a restore has
    run; and if that configuration enables the service, the repository is
    connected. *)
Theorem successful_update_stores_and_connects env newState m :
  fst (Update env (ReqServiceKopia newState) m) = None ->
  let m' := snd (Update env (ReqServiceKopia newState) m) in
  Config (kopia m') =
    (if triggers_restore newState m
     then set_RestoreSnapshotID "" (Config newState)
     else Config newState) /\
  (Enabled (Config newState) = true ->
   RepositoryConnected (State (kopia m')) = true /\
   LastStatus (State (kopia m')) = "Repository connected").
Proof.
  unfold Update. destruct (triggers_restore newState m) eqn:T.
  - rewrite Update_triggered by exact T.
    destruct (PerformRestore env _ (restore_entry newState m)) as [[e|] m1];
      simpl; [discriminate|].
    pose proof (Update_apply_Config env (kopia m)
                  (set_RestoreSnapshotID "" (Config newState)) m1) as HA.
    pose proof (Update_apply_connected env (kopia m)
                  (set_RestoreSnapshotID "" (Config newState)) m1) as HC.
    destruct (Update_apply env (kopia m) _ m1) as [r m2]; simpl in *.
    intros ->. split; [exact HA|]. intros En. apply HC; auto.
  - rewrite Update_untriggered by exact T.
    pose proof (Update_apply_Config env (kopia m) (Config newState)
                  (restore_entry newState m)) as HA.
    pose proof (Update_apply_connected env (kopia m) (Config newState)
                  (restore_entry newState m)) as HC.
    destruct (Update_apply env (kopia m) _ (restore_entry newState m))
      as [r m2]; simpl in *.
    intros ->. split; [exact HA|]. intros En. apply HC; auto.
Qed.

(** An update that disables the service, or keeps it disabled, and asks
    for no restore never fails and runs no command: the configuration is
    stored, a cycle marked as running is unmarked and its progress reset
    if the service was enabled, and [repository_connected] and
    [last_status] stay as they were. *)
Theorem disabling_update_runs_nothing env newState m :
  Enabled (Config newState) = false ->
  triggers_restore newState m = false ->
  let (result, m') := Update env (ReqServiceKopia newState) m in
  result = None /\
  Config (kopia m') = Config newState /\
  commands (since m m') = [] /\
  RepositoryConnected (State (kopia m')) = RepositoryConnected (State (kopia m)) /\
  LastStatus (State (kopia m')) = LastStatus (State (kopia m)) /\
  (Enabled (Config (kopia m)) = true ->
   InProgress (State (kopia m')) = false /\ Progress (State (kopia m')) = 0) /\
  (Enabled (Config (kopia m)) = false ->
   State (kopia m') = State (kopia m)).
Proof.
  intros En T. unfold Update. rewrite Update_untriggered by exact T.
  unfold restore_entry, Update_apply, Stop, Start. unfold_go.
  rewrite En. simpl.
  destruct (Enabled (Config (kopia m))) eqn:E0; simpl;
    rewrite ?E0, ?En; simpl; rewrite ?En; simpl;
    trace_norm; rewrite ?since_kept; simpl;
    repeat split; try reflexivity; try discriminate.
Qed.

(** [Get] never fails and returns the record as it leaves it.  It touches
    nothing but the list of snapshots; it asks nothing of the outside
    unless the service is enabled and connected, and then only for the
    list; and when the listing or its parsing fails, the list it had is
    kept. *)
Theorem Get_refreshes_or_keeps env m :
  let (answer, m') := Get env m in
  answer = (kopia m', None) /\
  same_but_snapshots (kopia m) (kopia m') /\
  (if Enabled (Config (kopia m)) && RepositoryConnected (State (kopia m))
   then
     since m m' = [RunCommand "kopia" ["snapshot"; "list"; "--json"]] /\
     AvailableSnapshots (State (kopia m')) =
       match subprocess_RunCommandContext env (length (trace m)) "kopia"
               ["snapshot"; "list"; "--json"] with
       | (output, None) =>
           match json_Unmarshal env output with
           | (snapshots, None) => map snapshot_of_json snapshots
           | (_, Some _) => AvailableSnapshots (State (kopia m))
           end
       | (_, Some _) => AvailableSnapshots (State (kopia m))
       end
   else m' = m).
Proof.
  unfold Get, refreshSnapshots, same_but_snapshots, snapshot_of_json.
  unfold_go. run_go; trace_norm; simpl;
    repeat split; try reflexivity.
Qed.

(* ================================================================== *)
(** ** More on the backup cycle *)
(* ================================================================== *)

Lemma snapshots_destroyed_app (a b : list (string * list string)) :
  snapshots_destroyed (a ++ b) =
  (snapshots_destroyed a ++ snapshots_destroyed b)%list.
Proof.
  induction a as [|[name args] a IH]; simpl; [reflexivity|].
  destruct args as [|v [|s [|x l]]]; auto.
  destruct (String.eqb name "zfs" && String.eqb v "destroy"); simpl;
    rewrite IH; reflexivity.
Qed.

Ltac expire_cases :=
  repeat match goal with
  | H : _ = [] \/ (exists rest, _ = [RunCommand _ _]) |- _ =>
      let r := fresh "rest" in
      destruct H as [->|[r ->]]; [|destruct r]
  end.

(** Whatever happens in a backup cycle, the only snapshot it ever asks
    ZFS to destroy is the one it has asked ZFS to create. *)
Theorem backup_destroys_only_its_snapshot env m name :
  In name
    (snapshots_destroyed (commands (since m (snd (performBackup env m))))) ->
  snapshots_requested (commands (since m (snd (performBackup env m)))) = [name].
Proof.
  revert name.
  unfold performBackup, performBackup_deferred. unfold_go.
  run_go; trace_norm; rewrite ?since_kept, ?snapshots_destroyed_app;
    expire_cases; simpl; intros name H;
    repeat match goal with
    | H : _ \/ _ |- _ => destruct H as [H|H]
    end; try contradiction; subst; reflexivity.
Qed.

(** Once the backup engine has taken its snapshot (progress is at 75),
    the cycle succeeds: a failure of the retention step or of the cleanup
    does not fail it. *)
Theorem backup_succeeds_once_uploaded env m :
  In 75 (progress_writes (since m (snd (performBackup env m)))) ->
  fst (performBackup env m) = None /\
  Progress (State (kopia (snd (performBackup env m)))) = 100 /\
  InProgress (State (kopia (snd (performBackup env m)))) = false.
Proof.
  unfold performBackup, performBackup_deferred. unfold_go.
  run_go; trace_norm; rewrite ?since_kept;
    expire_cases; simpl; intros H;
    repeat match goal with
    | H : _ \/ _ |- _ => destruct H as [H|H]
    end; try contradiction; try discriminate; repeat split.
Qed.

Lemma retentionArgs_flags (config : ServiceKopiaConfig) :
  retentionArgs config =
  "snapshot" :: "expire" ::
  flat_map (fun flag => [fst flag; Sprintf_d (snd flag)])
    (retention_set (Retention config)).
Proof.
  unfold retentionArgs, retention_set. simpl.
  destruct (0 <? KeepLatest (Retention config));
  destruct (0 <? KeepHourly (Retention config));
  destruct (0 <? KeepDaily (Retention config));
  destruct (0 <? KeepWeekly (Retention config));
  destruct (0 <? KeepMonthly (Retention config));
  destruct (0 <? KeepAnnual (Retention config)); reflexivity.
Qed.

(** When some retention count is above zero, [applyRetention] runs
    [kopia snapshot expire] once, with one flag and its count for each
    count above zero and for no other, in the order latest, hourly,
    daily, weekly, monthly, annual; it fails exactly when that command
    does. *)
Theorem retention_expires_with_set_counts env m :
  retention_set (Retention (Config (kopia m))) <> [] ->
  let args :=
    "snapshot" :: "expire" ::
    flat_map (fun flag => [fst flag; Sprintf_d (snd flag)])
      (retention_set (Retention (Config (kopia m)))) in
  let (result, m') := applyRetention env m in
  since m m' = [RunCommand "kopia" args] /\
  kopia m' = kopia m /\
  result =
    match snd (subprocess_RunCommandContext env (length (trace m)) "kopia" args) with
    | None => None
    | Some e => Some ("failed to apply retention policy: " ++ e)
    end.
Proof.
  intros H. unfold applyRetention. unfold_go. cbv zeta.
  rewrite retentionArgs_flags.
  destruct (retention_set (Retention (Config (kopia m)))) as [|flag rest];
    [congruence|].
  simpl.
  destruct (subprocess_RunCommandContext env (length (trace m)) "kopia" _)
    as [out [e|]]; trace_norm; simpl; repeat split.
Qed.

(* ================================================================== *)
(** ** The loops of a restore, more closely *)
(* ================================================================== *)

Lemma subseq_nil (b : list string) : subseq [] b = true.
Proof. destruct b; reflexivity. Qed.

Lemma subseq_tail (b : list string) :
  forall a x, subseq (x :: a) b = true -> subseq a b = true.
Proof.
  induction b as [|y b IH]; intros a x H; simpl in H; [discriminate|].
  assert (skip : forall a', subseq a' b = true -> subseq a' (y :: b) = true).
  { intros [|z a'] Ha; simpl; [reflexivity|].
    destruct (String.eqb z y); [apply (IH a' z Ha) | exact Ha]. }
  destruct (String.eqb x y); apply skip; [exact H | apply (IH a x H)].
Qed.

Lemma subseq_skip (a b : list string) (y : string) :
  subseq a b = true -> subseq a (y :: b) = true.
Proof.
  destruct a as [|x a]; intros H; simpl; [reflexivity|].
  destruct (String.eqb x y); [apply (subseq_tail b a x H) | exact H].
Qed.

Lemma subseq_keep (a b : list string) (x : string) :
  subseq a b = true -> subseq (x :: a) (x :: b) = true.
Proof. intros H. simpl. rewrite String.eqb_refl. exact H. Qed.

Lemma machine_eta (m : Machine) :
  {| kopia := kopia m; trace := trace m ++ [] |} = m.
Proof. rewrite app_nil_r. destruct m; reflexivity. Qed.

Ltac extend_loop IH m e :=
  let evs := fresh "evs" in let E := fresh "E" in
  let F := fresh "F" in let S := fresh "S" in
  destruct (IH {| kopia := kopia m; trace := trace m ++ e |})
    as (evs & E & F & S);
  exists (e ++ evs)%list; rewrite E; cbn [kopia trace];
  rewrite <- app_assoc.

Lemma stopApplications_phase env apps : forall m, exists evs,
  stopApplications env apps m =
    (tt, {| kopia := kopia m; trace := trace m ++ evs |}) /\
  forallb stop_phase evs = true /\ services_stopped evs = [].
Proof.
  induction apps as [|[name version] rest IH]; intros m; simpl.
  - exists []. rewrite machine_eta. auto.
  - unfold bind, call.
    destruct (applications_Load env (length (trace m)) name).
    + extend_loop IH m [AppLoad name]. simpl. auto.
    + cbn [kopia trace]. rewrite <- app_assoc.
      extend_loop IH m ([AppLoad name] ++ [AppStop name version])%list.
      simpl. auto.
Qed.

Lemma startApplications_phase env apps : forall m, exists evs,
  startApplications env apps m =
    (tt, {| kopia := kopia m; trace := trace m ++ evs |}) /\
  forallb start_phase evs = true /\ services_started evs = [].
Proof.
  induction apps as [|[name version] rest IH]; intros m; simpl.
  - exists []. rewrite machine_eta. auto.
  - unfold bind, call.
    destruct (applications_Load env (length (trace m)) name).
    + extend_loop IH m [AppLoad name]. simpl. auto.
    + cbn [kopia trace]. rewrite <- app_assoc.
      extend_loop IH m ([AppLoad name] ++ [AppStart name version])%list.
      simpl. auto.
Qed.

Lemma stopServices_phase env names : forall m, exists evs,
  stopServices env names m =
    (tt, {| kopia := kopia m; trace := trace m ++ evs |}) /\
  forallb stop_phase evs = true /\
  subseq (services_stopped evs) names = true.
Proof.
  induction names as [|name rest IH]; intros m; simpl.
  - exists []. rewrite machine_eta. auto.
  - destruct (String.eqb name "kopia") eqn:K.
    + destruct (IH m) as (evs & E & F & S). exists evs.
      repeat split; auto. apply subseq_skip. exact S.
    + unfold bind, call.
      destruct (services_Load env (length (trace m)) name).
      * extend_loop IH m [SrvLoad name]. simpl.
        unfold stop_phase at 1. simpl. rewrite K.
        repeat split; auto. apply subseq_skip. exact S.
      * cbn [kopia trace].
        destruct (srv_ShouldStart env _ name); cbn [negb kopia trace];
          rewrite <- ?app_assoc.
        -- extend_loop IH m
             ([SrvLoad name] ++ [SrvShouldStart name] ++ [SrvStop name])%list.
           simpl. unfold stop_phase at 1 2 3. simpl. rewrite K.
           rewrite String.eqb_refl. auto.
        -- extend_loop IH m ([SrvLoad name] ++ [SrvShouldStart name])%list.
           simpl. unfold stop_phase at 1 2. simpl. rewrite K.
           repeat split; auto. apply subseq_skip. exact S.
Qed.

Lemma startServices_phase env names : forall m, exists evs,
  startServices env names m =
    (tt, {| kopia := kopia m; trace := trace m ++ evs |}) /\
  forallb start_phase evs = true /\
  subseq (services_started evs) names = true.
Proof.
  induction names as [|name rest IH]; intros m; simpl.
  - exists []. rewrite machine_eta. auto.
  - destruct (String.eqb name "kopia") eqn:K.
    + destruct (IH m) as (evs & E & F & S). exists evs.
      repeat split; auto. apply subseq_skip. exact S.
    + unfold bind, call.
      destruct (services_Load env (length (trace m)) name).
      * extend_loop IH m [SrvLoad name]. simpl.
        unfold start_phase at 1. simpl. rewrite K.
        repeat split; auto. apply subseq_skip. exact S.
      * cbn [kopia trace].
        destruct (srv_ShouldStart env _ name); cbn [negb kopia trace];
          rewrite <- ?app_assoc.
        -- extend_loop IH m
             ([SrvLoad name] ++ [SrvShouldStart name] ++ [SrvStart name])%list.
           simpl. unfold start_phase at 1 2 3. simpl. rewrite K.
           rewrite String.eqb_refl. auto.
        -- extend_loop IH m ([SrvLoad name] ++ [SrvShouldStart name])%list.
           simpl. unfold start_phase at 1 2. simpl. rewrite K.
           repeat split; auto. apply subseq_skip. exact S.
Qed.

Lemma forallb_weaken (p q : Event -> bool) (evs : list Event) :
  (forall e, p e = true -> q e = true) ->
  forallb p evs = true -> forallb q evs = true.
Proof.
  intros W. induction evs as [|e evs IH]; simpl; [reflexivity|].
  intros H. apply andb_prop in H. destruct H as [He H].
  rewrite (W e He), (IH H). reflexivity.
Qed.

Lemma forallb_excludes (p q : Event -> bool) (evs : list Event) :
  (forall e, p e = true -> q e = false) ->
  forallb p evs = true -> existsb q evs = false.
Proof.
  intros W. induction evs as [|e evs IH]; simpl; [reflexivity|].
  intros H. apply andb_prop in H. destruct H as [He H].
  rewrite (W e He), (IH H). reflexivity.
Qed.

Lemma services_stopped_app (a b : list Event) :
  services_stopped (a ++ b) = (services_stopped a ++ services_stopped b)%list.
Proof.
  induction a as [|e a IH]; simpl; [reflexivity|].
  destruct e; simpl; rewrite IH; reflexivity.
Qed.

Lemma services_started_app (a b : list Event) :
  services_started (a ++ b) = (services_started a ++ services_started b)%list.
Proof.
  induction a as [|e a IH]; simpl; [reflexivity|].
  destruct e; simpl; rewrite IH; reflexivity.
Qed.

Lemma directories_made_app (a b : list Event) :
  directories_made (a ++ b) = (directories_made a ++ directories_made b)%list.
Proof.
  induction a as [|e a IH]; simpl; [reflexivity|].
  destruct e; simpl; rewrite IH; reflexivity.
Qed.

Lemma directories_removed_app (a b : list Event) :
  directories_removed (a ++ b) =
  (directories_removed a ++ directories_removed b)%list.
Proof.
  induction a as [|e a IH]; simpl; [reflexivity|].
  destruct e; simpl; rewrite IH; reflexivity.
Qed.

Lemma registry_quiet (evs : list Event) :
  forallb registry evs = true ->
  directories_made evs = [] /\ directories_removed evs = [] /\
  forall name verb, existsb (is_command name verb) evs = false.
Proof.
  induction evs as [|e evs IH]; simpl; [auto|].
  intros H. apply andb_prop in H. destruct H as [He H].
  destruct (IH H) as (M & R & C).
  destruct e; simpl in *; try discriminate; auto.
Qed.

Lemma no_stop_started (evs : list Event) :
  existsb stops evs = false -> services_stopped evs = [].
Proof.
  induction evs as [|e evs IH]; simpl; [reflexivity|].
  intros H. apply orb_false_elim in H. destruct H as [He H].
  destruct e; simpl in *; try discriminate; auto.
Qed.

Lemma no_start_started (evs : list Event) :
  existsb starts evs = false -> services_started evs = [].
Proof.
  induction evs as [|e evs IH]; simpl; [reflexivity|].
  intros H. apply orb_false_elim in H. destruct H as [He H].
  destruct e; simpl in *; try discriminate; auto.
Qed.

Lemma after_app_skip (p : Event -> bool) (evs l : list Event) :
  existsb p evs = false -> after p (evs ++ l) = after p l.
Proof.
  induction evs as [|e evs IH]; simpl; [reflexivity|].
  intros H. apply orb_false_elim in H. destruct H as [He H].
  rewrite He. apply IH. exact H.
Qed.

Lemma before_app_skip (p : Event -> bool) (evs l : list Event) :
  existsb p evs = false -> before p (evs ++ l) = (evs ++ before p l)%list.
Proof.
  induction evs as [|e evs IH]; simpl; [reflexivity|].
  intros H. apply orb_false_elim in H. destruct H as [He H].
  rewrite He, IH by exact H. reflexivity.
Qed.

(** What is known of the events of a stopping loop, and of a starting
    loop. *)
Record quiet_loop (evs : list Event) : Prop := {
  loop_registry : forallb registry evs = true;
  loop_spares_self : forallb not_self evs = true;
  loop_commands : commands evs = [];
  loop_progress : progress_writes evs = [];
  loop_made : directories_made evs = [];
  loop_removed : directories_removed evs = [];
  loop_no_command : forall name verb, existsb (is_command name verb) evs = false
}.

Lemma quiet_of_registry (evs : list Event) :
  forallb registry evs = true -> forallb not_self evs = true -> quiet_loop evs.
Proof.
  intros R N. destruct (registry_quiet evs R) as (M & D & C).
  constructor; auto.
  - apply registry_commands; exact R.
  - apply registry_progress_writes; exact R.
Qed.

Lemma stop_phase_facts (evs : list Event) :
  forallb stop_phase evs = true ->
  quiet_loop evs /\ existsb starts evs = false /\ services_started evs = [].
Proof.
  intros F.
  assert (R : forallb registry evs = true).
  { apply (forallb_weaken stop_phase); [|exact F].
    intros e H. unfold stop_phase in H.
    apply andb_prop in H. destruct H as [H _].
    apply andb_prop in H. tauto. }
  assert (N : forallb not_self evs = true).
  { apply (forallb_weaken stop_phase); [|exact F].
    intros e H. unfold stop_phase in H. apply andb_prop in H. tauto. }
  assert (S : existsb starts evs = false).
  { apply (forallb_excludes stop_phase); [|exact F].
    intros e H. unfold stop_phase in H.
    apply andb_prop in H. destruct H as [H _].
    apply andb_prop in H. destruct H as [_ H].
    apply negb_true_iff in H. exact H. }
  split; [apply quiet_of_registry; assumption|].
  split; [exact S | apply no_start_started; exact S].
Qed.

Lemma start_phase_facts (evs : list Event) :
  forallb start_phase evs = true ->
  quiet_loop evs /\ existsb stops evs = false /\ services_stopped evs = [].
Proof.
  intros F.
  assert (R : forallb registry evs = true).
  { apply (forallb_weaken start_phase); [|exact F].
    intros e H. unfold start_phase in H.
    apply andb_prop in H. destruct H as [H _].
    apply andb_prop in H. tauto. }
  assert (N : forallb not_self evs = true).
  { apply (forallb_weaken start_phase); [|exact F].
    intros e H. unfold start_phase in H. apply andb_prop in H. tauto. }
  assert (S : existsb stops evs = false).
  { apply (forallb_excludes start_phase); [|exact F].
    intros e H. unfold start_phase in H.
    apply andb_prop in H. destruct H as [H _].
    apply andb_prop in H. destruct H as [_ H].
    apply negb_true_iff in H. exact H. }
  split; [apply quiet_of_registry; assumption|].
  split; [exact S | apply no_stop_started; exact S].
Qed.

(** Symbolic execution of a restore: as [run_go], with what the four
    loops are known to do. *)
Ltac phase_step :=
  match goal with
  | |- context [stopApplications ?e ?l ?m] =>
      let evs := fresh "stoppedApps" in
      let E := fresh "E" in let F := fresh "F" in let S := fresh "S" in
      destruct (stopApplications_phase e l m) as (evs & E & F & S);
      rewrite E; clear E;
      destruct (stop_phase_facts evs F) as ([] & ? & ?); clear F
  | |- context [stopServices ?e ?l ?m] =>
      let evs := fresh "stoppedSrvs" in
      let E := fresh "E" in let F := fresh "F" in let S := fresh "S" in
      destruct (stopServices_phase e l m) as (evs & E & F & S);
      rewrite E; clear E;
      destruct (stop_phase_facts evs F) as ([] & ? & ?); clear F
  | |- context [startServices ?e ?l ?m] =>
      let evs := fresh "startedSrvs" in
      let E := fresh "E" in let F := fresh "F" in let S := fresh "S" in
      destruct (startServices_phase e l m) as (evs & E & F & S);
      rewrite E; clear E;
      destruct (start_phase_facts evs F) as ([] & ? & ?); clear F
  | |- context [startApplications ?e ?l ?m] =>
      let evs := fresh "startedApps" in
      let E := fresh "E" in let F := fresh "F" in let S := fresh "S" in
      destruct (startApplications_phase e l m) as (evs & E & F & S);
      rewrite E; clear E;
      destruct (start_phase_facts evs F) as ([] & ? & ?); clear F
  end.

Ltac run_restore :=
  unfold PerformRestore, PerformRestore_deferred; unfold_go;
  repeat (cbn [fst snd kopia trace State Config];
          first [phase_step | case_step]).

(** Everything known of the loops is used to simplify the goal. *)
Ltac use_facts :=
  repeat match goal with
  | H : existsb ?p ?evs = false |- context [existsb ?p ?evs] => rewrite H
  | H : forallb ?p ?evs = true |- context [forallb ?p ?evs] => rewrite H
  | H : commands ?evs = [] |- context [commands ?evs] => rewrite H
  | H : progress_writes ?evs = [] |- context [progress_writes ?evs] =>
      rewrite H
  | H : services_stopped ?evs = [] |- context [services_stopped ?evs] =>
      rewrite H
  | H : services_started ?evs = [] |- context [services_started ?evs] =>
      rewrite H
  | H : directories_made ?evs = [] |- context [directories_made ?evs] =>
      rewrite H
  | H : directories_removed ?evs = [] |- context [directories_removed ?evs] =>
      rewrite H
  | H : forall name verb, existsb (is_command name verb) ?evs = false
    |- context [existsb (is_command ?n ?v) ?evs] => rewrite (H n v)
  end.

Ltac restore_trace :=
  cbn [fst snd kopia trace State Config];
  rewrite <- ?app_assoc;
  rewrite ?since_app, ?since_self, ?since_kept;
  rewrite ?commands_app, ?progress_writes_app, ?existsb_app, ?forallb_app,
    ?services_stopped_app, ?services_started_app,
    ?directories_made_app, ?directories_removed_app;
  use_facts.

(* ================================================================== *)
(** ** More on the restore cycle *)
(* ================================================================== *)

(** A restore that fails restarts nothing: the applications and services
    it has stopped are left stopped. *)
Theorem failed_restore_restarts_nothing env snapshotID m e :
  fst (PerformRestore env snapshotID m) = Some e ->
  existsb starts (since m (snd (PerformRestore env snapshotID m))) = false.
Proof.
  run_restore; intros Hfail; try discriminate Hfail;
    restore_trace; cbn [app existsb starts orb]; reflexivity.
Qed.

(** A restore never loads, stops or starts the service it belongs to. *)
Theorem restore_spares_its_own_service env snapshotID m :
  forallb not_self (since m (snd (PerformRestore env snapshotID m))) = true.
Proof.
  run_restore; restore_trace; cbn [app forallb not_self andb]; reflexivity.
Qed.

(** The services a restore stops are stopped in the reverse of the
    startup order, and those it starts again are started in the startup
    order. *)
Theorem restore_stops_in_reverse_and_starts_in_order env snapshotID m :
  subseq (services_stopped (since m (snd (PerformRestore env snapshotID m))))
         (List.rev (Supported env)) = true /\
  subseq (services_started (since m (snd (PerformRestore env snapshotID m))))
         (Supported env) = true.
Proof.
  run_restore; restore_trace;
    cbn [app services_stopped services_started]; rewrite ?app_nil_r;
    split; auto using subseq_nil.
Qed.

(** Whatever the outcome of a restore, the staging directory it has
    created is removed again; the one case in which a directory asked for
    is not removed is the one in which its creation failed, and the
    restore with it. *)
Theorem staging_directory_is_removed env snapshotID m :
  let m' := snd (PerformRestore env snapshotID m) in
  directories_removed (since m m') = directories_made (since m m') \/
  (directories_removed (since m m') = [] /\
   exists cause,
     fst (PerformRestore env snapshotID m) = Some cause /\
     LastStatus (State (kopia m')) =
       "Failed to create temp restore path: " ++ cause).
Proof.
  cbv zeta.
  run_restore; restore_trace;
    cbn [app directories_made directories_removed];
    first [left; reflexivity
          | right; split; [reflexivity|]; eexists; split; reflexivity].
Qed.

(** In a restore, nothing is stopped once the safety snapshot has been
    asked for, and nothing is started before [rsync] has been run on the
    restored data. *)
Theorem restore_stops_first_and_starts_last env snapshotID m :
  let events := since m (snd (PerformRestore env snapshotID m)) in
  existsb stops (after (is_command "zfs" "snapshot") events) = false /\
  existsb starts (before (is_command "rsync" "-a") events) = false.
Proof.
  cbv zeta.
  run_restore; restore_trace;
    repeat (simpl;
            rewrite ?after_app_skip, ?before_app_skip by auto;
            rewrite ?existsb_app; use_facts);
    split; reflexivity.
Qed.

(** Finding an event in a trace that went on growing after it. *)
Lemma trace_grows_after (before : list Event) (e : Event)
    (l rest extra : list Event) :
  l = (before ++ e :: rest)%list ->
  (l ++ extra)%list = (before ++ e :: (rest ++ extra))%list.
Proof. intros ->. rewrite <- app_assoc. reflexivity. Qed.

(** A restore that succeeds ends with [in_progress] false, [progress] at
    100 and the final status.  It has asked ZFS for one snapshot and for
    the mount point of the pool; the staging directory is
    [.kopia-restore-temp] in the mount point ZFS has answered (the pool's
    name under the root when the answer is [none] or [legacy]); the
    snapshot asked for was restored into the staging directory, and the
    staging directory mirrored onto that mount point with
    [rsync -a --delete]. *)
Theorem successful_restore_outcome env snapshotID m :
  fst (PerformRestore env snapshotID m) = None ->
  let m' := snd (PerformRestore env snapshotID m) in
  let query := ["get"; "-H"; "-o"; "value"; "mountpoint"; "local"] in
  InProgress (State (kopia m')) = false /\
  Progress (State (kopia m')) = 100 /\
  LastStatus (State (kopia m')) = "Restore completed successfully" /\
  exists before output rest t1 t2,
    trace m' = (before ++ RunCommand "zfs" query :: rest)%list /\
    subprocess_RunCommandContext env (length before) "zfs" query =
      (output, None) /\
    let mountpoint := mountpoint_of env "local" output in
    let staging := filepath_Join env [mountpoint; ".kopia-restore-temp"] in
    commands (since m m') =
      [("zfs", ["snapshot"; requested_name t1 t2]);
       ("zfs", query);
       ("kopia", ["snapshot"; "restore"; snapshotID; staging]);
       ("rsync", ["-a"; "--delete"; staging ++ "/"; mountpoint ++ "/"])] /\
    directories_made (since m m') = [staging].
Proof.
  cbv zeta.
  run_restore; intros Hok; try discriminate Hok;
    (split; [reflexivity|]); (split; [reflexivity|]);
    (split; [reflexivity|]);
    match goal with
    | Q : subprocess_RunCommandContext env (length ?P) "zfs" ("get" :: _) =
          (?out, None) |- _ =>
        exists P, out; eexists; eexists; eexists;
        split; [|split; [exact Q|]]
    end.
  all: unfold mountpoint_of; cbv zeta;
    repeat match goal with
    | Q : (_ || _)%bool = _ |- _ => rewrite Q; clear Q
    end;
    cbn [snd trace].
  all: first
    [ solve [repeat first [reflexivity | eapply trace_grows_after]]
    | restore_trace; cbn [app commands directories_made];
      split; reflexivity ].
Qed.

(** A restore that fails fails in one of seven ways.  The repository is
    not connected, or the pool is missing: the record is left untouched.
    Otherwise [in_progress] is false again, [progress] stays at the
    checkpoint of the step that failed and [last_status] names that step
    with its error: the safety snapshot (20), the mount point (30), the
    staging directory (40), the restore of the snapshot (50), the copy of
    the restored data (70). *)
Theorem failed_restore_outcome env snapshotID m e :
  fst (PerformRestore env snapshotID m) = Some e ->
  let m' := snd (PerformRestore env snapshotID m) in
  (m' = m /\ RepositoryConnected (State (kopia m)) = false /\
   e = "repository not connected") \/
  (kopia m' = kopia m /\ since m m' = [PoolExists "local"] /\
   e = "local ZFS pool not found") \/
  (InProgress (State (kopia m')) = false /\
   ((Progress (State (kopia m')) = 20 /\
     exists cause,
       e = "failed to create safety snapshot: " ++ cause /\
       LastStatus (State (kopia m')) =
         "Failed to create safety snapshot: " ++ cause) \/
    (Progress (State (kopia m')) = 30 /\
     LastStatus (State (kopia m')) = "Failed to get pool mountpoint: " ++ e) \/
    (Progress (State (kopia m')) = 40 /\
     LastStatus (State (kopia m')) =
       "Failed to create temp restore path: " ++ e) \/
    (Progress (State (kopia m')) = 50 /\
     LastStatus (State (kopia m')) = "Failed to restore snapshot: " ++ e) \/
    (Progress (State (kopia m')) = 70 /\
     LastStatus (State (kopia m')) = "Failed to apply restored data: " ++ e))).
Proof.
  cbv zeta.
  run_restore; cbn [fst snd]; intros Hfail; try discriminate Hfail;
    injection Hfail as <-;
    repeat match goal with
    | E : negb _ = true |- _ => apply negb_true_iff in E
    end;
    first
      [ left; solve [auto]
      | right; left; solve [restore_trace; auto]
      | right; right; split; [reflexivity|];
        first
          [ left; split; [reflexivity|]; eexists; split; reflexivity
          | right; left; split; reflexivity
          | right; right; left; split; reflexivity
          | right; right; right; left; split; reflexivity
          | right; right; right; right; split; reflexivity ] ].
Qed.

(** Neither cycle touches the configuration, [repository_connected],
    [last_backup_window] or the list of snapshots, whatever its outcome,
    and a restore does not touch [last_backup] either. *)
Theorem cycles_keep_repository_fields env snapshotID m :
  (let k' := kopia (snd (PerformRestore env snapshotID m)) in
   Config k' = Config (kopia m) /\
   RepositoryConnected (State k') = RepositoryConnected (State (kopia m)) /\
   LastBackup (State k') = LastBackup (State (kopia m)) /\
   LastBackupWindow (State k') = LastBackupWindow (State (kopia m)) /\
   AvailableSnapshots (State k') = AvailableSnapshots (State (kopia m))) /\
  (let k' := kopia (snd (performBackup env m)) in
   Config k' = Config (kopia m) /\
   RepositoryConnected (State k') = RepositoryConnected (State (kopia m)) /\
   LastBackupWindow (State k') = LastBackupWindow (State (kopia m)) /\
   AvailableSnapshots (State k') = AvailableSnapshots (State (kopia m))).
Proof.
  split; cbv zeta.
  - unfold PerformRestore, PerformRestore_deferred. unfold_go.
    run_go; repeat split; reflexivity.
  - unfold performBackup, performBackup_deferred. unfold_go.
    run_go; repeat split; reflexivity.
Qed.

(* ================================================================== *)
(** ** The time of the last backup *)
(* ================================================================== *)

Lemma Stop_LastBackup m :
  LastBackup (State (kopia (snd (Stop m)))) = LastBackup (State (kopia m)).
Proof. unfold Stop. unfold_go. run_go; reflexivity. Qed.

Lemma configure_LastBackup env m :
  LastBackup (State (kopia (snd (configure env m)))) =
  LastBackup (State (kopia m)).
Proof.
  unfold_configure. unfold_go. run_go; reflexivity.
Qed.

Lemma Start_LastBackup env m :
  LastBackup (State (kopia (snd (Start env m)))) = LastBackup (State (kopia m)).
Proof.
  unfold Start, bind, get_kopia.
  destruct (negb (Enabled (Config (kopia m)))); [reflexivity|].
  apply configure_LastBackup.
Qed.

Lemma Get_LastBackup env m :
  LastBackup (State (kopia (snd (Get env m)))) = LastBackup (State (kopia m)).
Proof. unfold Get, refreshSnapshots. unfold_go. run_go; reflexivity. Qed.

Lemma PerformRestore_LastBackup env snapshotID m :
  LastBackup (State (kopia (snd (PerformRestore env snapshotID m)))) =
  LastBackup (State (kopia m)).
Proof.
  unfold PerformRestore, PerformRestore_deferred. unfold_go.
  run_go; reflexivity.
Qed.

Lemma restore_entry_LastBackup newState m :
  LastBackup (State (kopia (restore_entry newState m))) =
  LastBackup (State (kopia m)).
Proof.
  unfold restore_entry.
  destruct (Enabled (Config (kopia m)) && negb (Enabled (Config newState))).
  - apply Stop_LastBackup.
  - reflexivity.
Qed.

Lemma Update_apply_LastBackup env oldState newConfig m :
  LastBackup (State (kopia (snd (Update_apply env oldState newConfig m)))) =
  LastBackup (State (kopia m)).
Proof.
  unfold Update_apply, bind, assign_Config, get_kopia.
  set (m1 := {| kopia := {| State := State (kopia m); Config := newConfig |};
                trace := trace m |}).
  change (LastBackup (State (kopia m))) with (LastBackup (State (kopia m1))).
  destruct (negb (Enabled (Config oldState)) && Enabled newConfig).
  - pose proof (Start_LastBackup env m1) as HS.
    destruct (Start env m1) as [[e|] m2]; simpl in *; [exact HS|].
    destruct (Enabled (Config (kopia m2))); simpl.
    + rewrite configure_LastBackup. exact HS.
    + exact HS.
  - unfold ret. simpl.
    destruct (Enabled newConfig); simpl; [|reflexivity].
    rewrite configure_LastBackup. reflexivity.
Qed.

Lemma Update_LastBackup env req m :
  LastBackup (State (kopia (snd (Update env req m)))) =
  LastBackup (State (kopia m)).
Proof.
  destruct req as [newState|ty]; [|reflexivity].
  unfold Update. destruct (triggers_restore newState m) eqn:T.
  - rewrite Update_triggered by exact T.
    pose proof (PerformRestore_LastBackup env
                  (RestoreSnapshotID (Config newState))
                  (restore_entry newState m)) as HR.
    rewrite restore_entry_LastBackup in HR.
    destruct (PerformRestore env _ (restore_entry newState m)) as [[e|] m1];
      simpl in *; [exact HR|].
    pose proof (Update_apply_LastBackup env (kopia m)
                  (set_RestoreSnapshotID "" (Config newState)) m1) as HA.
    destruct (Update_apply env (kopia m) _ m1) as [r m2]; simpl in *.
    congruence.
  - rewrite Update_untriggered by exact T.
    pose proof (Update_apply_LastBackup env (kopia m) (Config newState)
                  (restore_entry newState m)) as HA.
    rewrite restore_entry_LastBackup in HA.
    destruct (Update_apply env (kopia m) _ (restore_entry newState m))
      as [r m2]. exact HA.
Qed.

Lemma failed_backup_LastBackup env m :
  fst (performBackup env m) <> None ->
  LastBackup (State (kopia (snd (performBackup env m)))) =
  LastBackup (State (kopia m)).
Proof.
  unfold performBackup, performBackup_deferred. unfold_go.
  run_go; cbn [fst snd]; intros H; try reflexivity;
    exfalso; apply H; reflexivity.
Qed.

(** [last_backup] is the time of the last successful backup: of all the
    operations of the service, only a backup cycle that succeeds changes
    it. *)
Theorem last_backup_moves_only_with_a_successful_backup env op m :
  LastBackup (State (kopia (run env op m))) <> LastBackup (State (kopia m)) ->
  op = OpBackup /\ fst (performBackup env m) = None.
Proof.
  intros Moved. destruct op; cbn [run] in Moved.
  - exfalso. apply Moved. apply Update_LastBackup.
  - exfalso. apply Moved. apply Get_LastBackup.
  - exfalso. apply Moved. apply Start_LastBackup.
  - exfalso. apply Moved. apply Stop_LastBackup.
  - split; [reflexivity|].
    destruct (fst (performBackup env m)) eqn:R; [|reflexivity].
    exfalso. apply Moved. apply failed_backup_LastBackup.
    rewrite R. discriminate.
Qed.

(* ================================================================== *)
(** ** From a snapshot name to its path *)
(* ================================================================== *)

Lemma split_at_piece (a b : string) :
  count_at a = 0%nat -> split_at (a ++ String "@" b) = a :: split_at b.
Proof.
  induction a as [|c a IH]; simpl; [reflexivity|].
  destruct (Ascii.eqb c "@"); [discriminate|].
  intros H. rewrite IH by exact H. reflexivity.
Qed.

(** A name made by [createZFSSnapshot] for a pool splits back into the
    pool and the snapshot. *)
Lemma split_created_name (poolName : string) (t : GoTime) :
  count_at poolName = 0%nat ->
  split_at (poolName ++ "@kopia-" ++ Format_compact t) =
  [poolName; "kopia-" ++ Format_compact t].
Proof.
  intros H.
  change (poolName ++ "@kopia-" ++ Format_compact t)
    with (poolName ++ String "@" ("kopia-" ++ Format_compact t)).
  rewrite split_at_piece by exact H.
  rewrite split_at_none; [reflexivity|].
  rewrite count_at_app, count_at_Format_compact. reflexivity.
Qed.

(** For the name [createZFSSnapshot] gives the snapshot of a pool,
    [getSnapshotPath] asks ZFS for the mount point of that pool.  When
    the command fails it returns that error and no path.  Otherwise the
    path is the directory of the snapshot under [.zfs/snapshot] in the
    mount point ZFS has answered (the pool's name under the root when the
    answer is [none] or [legacy]); it is checked with [os.Stat] and
    returned when it exists, and no path is returned when it does not. *)
Theorem snapshot_path_of_created_name env poolName t m :
  count_at poolName = 0%nat ->
  let snapshot := "kopia-" ++ Format_compact t in
  let query := ["get"; "-H"; "-o"; "value"; "mountpoint"; poolName] in
  let (answer, m') :=
    getSnapshotPath env (poolName ++ "@kopia-" ++ Format_compact t) m in
  kopia m' = kopia m /\
  match subprocess_RunCommandContext env (length (trace m)) "zfs" query with
  | (_, Some e) =>
      answer = ("", Some ("failed to get mountpoint: " ++ e)) /\
      since m m' = [RunCommand "zfs" query]
  | (output, None) =>
      let path :=
        filepath_Join env
          [mountpoint_of env poolName output; ".zfs"; "snapshot"; snapshot] in
      since m m' = [RunCommand "zfs" query; Stat path] /\
      answer =
        match os_Stat env (length (trace m) + 1) path with
        | Some e => ("", Some ("snapshot path does not exist: " ++ e))
        | None => (path, None)
        end
  end.
Proof.
  intros H. cbv zeta. unfold getSnapshotPath. cbv zeta.
  rewrite (split_created_name poolName t H). cbn [nth].
  unfold mountpoint_of. unfold_go. cbv zeta.
  destruct (subprocess_RunCommandContext env (length (trace m)) "zfs"
              ["get"; "-H"; "-o"; "value"; "mountpoint"; poolName])
    as [output [e|]].
  - cbn [fst snd kopia trace]. rewrite since_app. auto.
  - destruct (String.eqb (strings_TrimSpace env output) "none" ||
              String.eqb (strings_TrimSpace env output) "legacy");
      cbn [fst snd kopia trace]; rewrite length_app; cbn [length];
      match goal with
      | |- context [os_Stat env ?i ?p] => destruct (os_Stat env i p)
      end;
      cbn [fst snd kopia trace]; rewrite <- app_assoc, since_app; auto.
Qed.

(* ================================================================== *)
(** ** The maintenance windows *)
(* ================================================================== *)

Lemma anyWindowActive_asks_in_turn env windows : forall m,
  let (active, m') := anyWindowActive env windows m in
  kopia m' = kopia m /\
  exists asked rest,
    windows = (asked ++ rest)%list /\
    trace m' = (trace m ++ map IsActive asked)%list /\
    (active = false -> rest = []) /\
    (active = true -> asked <> []) /\
    forall i w, nth_error asked i = Some w ->
      IsCurrentlyActive env (length (trace m) + i) w =
      active && (S i =? length asked)%nat.
Proof.
  induction windows as [|window rest IH]; intros m; simpl.
  - split; [reflexivity|]. exists [], []. simpl. rewrite app_nil_r.
    repeat split; auto; try discriminate.
    intros [|i] w H; discriminate H.
  - unfold bind, call.
    destruct (IsCurrentlyActive env (length (trace m)) window) eqn:A.
    + simpl. split; [reflexivity|]. exists [window], rest. simpl.
      repeat split; auto; try discriminate.
      intros [|i] w H; simpl in H.
      * injection H as <-. rewrite Nat.add_0_r. exact A.
      * destruct i; discriminate H.
    + specialize (IH {| kopia := kopia m; trace := trace m ++ [IsActive window] |}).
      destruct (anyWindowActive env rest _) as [active m'].
      cbn [kopia trace] in IH.
      destruct IH as (K & asked & rest' & W & T & F & N & Ans).
      split; [exact K|]. exists (window :: asked), rest'.
      rewrite W, T, <- app_assoc. simpl.
      repeat split; auto; try discriminate.
      intros [|i] w H; simpl in H.
      * injection H as <-. rewrite Nat.add_0_r, A.
        destruct active; [|reflexivity].
        destruct asked; [exfalso; apply N; reflexivity | reflexivity].
      * rewrite <- (Ans i w H). rewrite length_app. simpl.
        f_equal. lia.
Qed.

(** [isInMaintenanceWindow] holds without a question when no window is
    configured.  Otherwise it asks the windows in turn whether they are
    active and stops at the first that is: it holds exactly when the last
    window asked said yes, and when it does not hold every window has been
    asked and has said no. *)
Theorem maintenance_windows_are_asked_in_turn env m :
  let (inWindow, m') := isInMaintenanceWindow env m in
  kopia m' = kopia m /\
  (MaintenanceWindows env = [] -> inWindow = true /\ m' = m) /\
  (MaintenanceWindows env <> [] ->
   exists asked rest,
     MaintenanceWindows env = (asked ++ rest)%list /\
     since m m' = map IsActive asked /\
     (inWindow = false -> rest = []) /\
     (inWindow = true -> asked <> []) /\
     forall i w, nth_error asked i = Some w ->
       IsCurrentlyActive env (length (trace m) + i) w =
       inWindow && (S i =? length asked)%nat).
Proof.
  unfold isInMaintenanceWindow.
  destruct (MaintenanceWindows env) as [|window windows] eqn:W; simpl.
  - repeat split; auto. intros H. exfalso. apply H. reflexivity.
  - pose proof (anyWindowActive_asks_in_turn env (window :: windows) m) as A.
    simpl in A.
    match goal with
    | |- context [let (_, _) := ?c in _] => destruct c as [inWindow m']
    end.
    destruct A as (K & asked & rest & Eq & T & F & N & Ans).
    split; [exact K|]. split; [discriminate|]. intros _.
    exists asked, rest. repeat split; auto.
    destruct m' as [k' t']. simpl in *. subst t'. apply since_app.
Qed.

(* ================================================================== *)
(** ** The further properties on the sample system *)
(* ================================================================== *)

(** The sample backend, with its password: the connection succeeds. *)
Lemma repository_created_only_after_failed_connect_witness :
  Type_ (Backend (Sample.config "")) = "s3" /\
  S3 (Backend (Sample.config "")) = Some Sample.s3 /\
  RepositoryPassword (Config (kopia Sample.connected)) <> "" /\
  (let arguments :=
     repository_arguments Sample.s3
       (RepositoryPassword (Config (kopia Sample.connected))) in
   let connect := "repository" :: "connect" :: arguments in
   let create := "repository" :: "create" :: arguments in
   let (result, m') :=
     connectOrInitRepository Sample.calm (Backend (Sample.config ""))
       Sample.connected in
   kopia m' = kopia Sample.connected /\
   match snd (subprocess_RunCommandContext Sample.calm
                (length (trace Sample.connected)) "kopia" connect) with
   | None =>
       result = None /\ since Sample.connected m' = [RunCommand "kopia" connect]
   | Some _ =>
       since Sample.connected m' =
         [RunCommand "kopia" connect; RunCommand "kopia" create] /\
       result =
         match snd (subprocess_RunCommandContext Sample.calm
                      (S (length (trace Sample.connected))) "kopia" create) with
         | None => None
         | Some e => Some ("failed to create repository: " ++ e)
         end
   end).
Proof.
  split; [reflexivity|]. split; [reflexivity|]. split; [discriminate|].
  apply (repository_created_only_after_failed_connect Sample.calm
           (Backend (Sample.config "")) Sample.s3 Sample.connected);
    [reflexivity | reflexivity | discriminate].
Defined.

(** The sample system without its password. *)
Lemma configure_needs_password_witness :
  RepositoryPassword (Config (kopia Scenario.no_password)) = "" /\
  fst (configure Sample.calm Scenario.no_password) <> None /\
  commands (since Scenario.no_password
              (snd (configure Sample.calm Scenario.no_password))) = [].
Proof.
  split; [reflexivity|].
  apply (configure_needs_password Sample.calm Scenario.no_password).
  reflexivity.
Defined.

(** The same configuration comes in with two different states. *)
Lemma Update_ignores_incoming_state_witness :
  Config (Sample.incoming "k123") = Config (Scenario.incoming_with_state "k123") /\
  Update Sample.calm (ReqServiceKopia (Sample.incoming "k123")) Sample.connected =
  Update Sample.calm (ReqServiceKopia (Scenario.incoming_with_state "k123"))
    Sample.connected.
Proof.
  split; [reflexivity|].
  apply (Update_ignores_incoming_state Sample.calm (Sample.incoming "k123")
           (Scenario.incoming_with_state "k123") Sample.connected).
  reflexivity.
Defined.

(** A fresh service is enabled. *)
Lemma successful_update_stores_and_connects_witness :
  fst (Update Sample.calm (ReqServiceKopia (Sample.incoming "")) Sample.boot) = None /\
  (let m' :=
     snd (Update Sample.calm (ReqServiceKopia (Sample.incoming "")) Sample.boot) in
   Config (kopia m') =
     (if triggers_restore (Sample.incoming "") Sample.boot
      then set_RestoreSnapshotID "" (Config (Sample.incoming ""))
      else Config (Sample.incoming "")) /\
   (Enabled (Config (Sample.incoming "")) = true ->
    RepositoryConnected (State (kopia m')) = true /\
    LastStatus (State (kopia m')) = "Repository connected")).
Proof.
  split; [reflexivity|].
  apply (successful_update_stores_and_connects Sample.calm
           (Sample.incoming "") Sample.boot).
  reflexivity.
Defined.

(** The service is disabled while a cycle is marked as running. *)
Lemma disabling_update_runs_nothing_witness :
  Enabled (Config Scenario.disabling) = false /\
  triggers_restore Scenario.disabling Sample.busy = false /\
  (let (result, m') :=
     Update Sample.calm (ReqServiceKopia Scenario.disabling) Sample.busy in
   result = None /\
   Config (kopia m') = Config Scenario.disabling /\
   commands (since Sample.busy m') = [] /\
   RepositoryConnected (State (kopia m')) =
     RepositoryConnected (State (kopia Sample.busy)) /\
   LastStatus (State (kopia m')) = LastStatus (State (kopia Sample.busy)) /\
   (Enabled (Config (kopia Sample.busy)) = true ->
    InProgress (State (kopia m')) = false /\ Progress (State (kopia m')) = 0) /\
   (Enabled (Config (kopia Sample.busy)) = false ->
    State (kopia m') = State (kopia Sample.busy))).
Proof.
  split; [reflexivity|]. split; [reflexivity|].
  apply (disabling_update_runs_nothing Sample.calm Scenario.disabling
           Sample.busy); reflexivity.
Defined.

(** A backup on the sample system destroys the snapshot it has made. *)
Lemma backup_destroys_only_its_snapshot_witness :
  In "local@kopia-20240115-103000"
     (snapshots_destroyed
        (commands (since Sample.connected
                     (snd (performBackup Sample.calm Sample.connected))))) /\
  snapshots_requested
    (commands (since Sample.connected
                 (snd (performBackup Sample.calm Sample.connected)))) =
    ["local@kopia-20240115-103000"].
Proof.
  assert (H : In "local@kopia-20240115-103000"
                (snapshots_destroyed
                   (commands (since Sample.connected
                      (snd (performBackup Sample.calm Sample.connected)))))).
  { vm_compute. left. reflexivity. }
  split; [exact H|].
  apply (backup_destroys_only_its_snapshot Sample.calm Sample.connected
           "local@kopia-20240115-103000" H).
Defined.

(** The cleanup of the snapshot fails, and the backup succeeds. *)
Lemma backup_succeeds_once_uploaded_witness :
  In 75 (progress_writes
           (since Sample.connected
              (snd (performBackup Scenario.destroy_down Sample.connected)))) /\
  fst (performBackup Scenario.destroy_down Sample.connected) = None /\
  Progress (State (kopia (snd (performBackup Scenario.destroy_down
                                 Sample.connected)))) = 100 /\
  InProgress (State (kopia (snd (performBackup Scenario.destroy_down
                                   Sample.connected)))) = false.
Proof.
  assert (H : In 75 (progress_writes
                       (since Sample.connected
                          (snd (performBackup Scenario.destroy_down
                                  Sample.connected))))).
  { vm_compute. right. right. left. reflexivity. }
  split; [exact H|].
  apply (backup_succeeds_once_uploaded Scenario.destroy_down Sample.connected H).
Defined.

(** The sample policy keeps seven daily snapshots. *)
Lemma retention_expires_with_set_counts_witness :
  retention_set (Retention (Config (kopia Sample.connected))) <> [] /\
  (let args :=
     "snapshot" :: "expire" ::
     flat_map (fun flag => [fst flag; Sprintf_d (snd flag)])
       (retention_set (Retention (Config (kopia Sample.connected)))) in
   let (result, m') := applyRetention Sample.calm Sample.connected in
   since Sample.connected m' = [RunCommand "kopia" args] /\
   kopia m' = kopia Sample.connected /\
   result =
     match snd (subprocess_RunCommandContext Sample.calm
                  (length (trace Sample.connected)) "kopia" args) with
     | None => None
     | Some e => Some ("failed to apply retention policy: " ++ e)
     end).
Proof.
  split; [discriminate|].
  apply (retention_expires_with_set_counts Sample.calm Sample.connected).
  discriminate.
Defined.

(** The copy of the restored data fails. *)
Lemma failed_restore_restarts_nothing_witness :
  fst (PerformRestore Scenario.rsync_down "k123" Sample.connected) =
    Some "failed to apply restored data: exit status 1" /\
  existsb starts
    (since Sample.connected
       (snd (PerformRestore Scenario.rsync_down "k123" Sample.connected))) = false.
Proof.
  split; [reflexivity|].
  apply (failed_restore_restarts_nothing Scenario.rsync_down "k123"
           Sample.connected "failed to apply restored data: exit status 1").
  reflexivity.
Defined.

(** A restore on the sample system succeeds. *)
Lemma successful_restore_outcome_witness :
  fst (PerformRestore Sample.calm "k123" Sample.connected) = None /\
  (let m' := snd (PerformRestore Sample.calm "k123" Sample.connected) in
   let query := ["get"; "-H"; "-o"; "value"; "mountpoint"; "local"] in
   InProgress (State (kopia m')) = false /\
   Progress (State (kopia m')) = 100 /\
   LastStatus (State (kopia m')) = "Restore completed successfully" /\
   exists before output rest t1 t2,
     trace m' = (before ++ RunCommand "zfs" query :: rest)%list /\
     subprocess_RunCommandContext Sample.calm (length before) "zfs" query =
       (output, None) /\
     let mountpoint := mountpoint_of Sample.calm "local" output in
     let staging :=
       filepath_Join Sample.calm [mountpoint; ".kopia-restore-temp"] in
     commands (since Sample.connected m') =
       [("zfs", ["snapshot"; requested_name t1 t2]);
        ("zfs", query);
        ("kopia", ["snapshot"; "restore"; "k123"; staging]);
        ("rsync", ["-a"; "--delete"; staging ++ "/"; mountpoint ++ "/"])] /\
     directories_made (since Sample.connected m') = [staging]).
Proof.
  split; [reflexivity|].
  apply (successful_restore_outcome Sample.calm "k123" Sample.connected).
  reflexivity.
Defined.

(** The copy of the restored data fails: the restore stops at 70. *)
Lemma failed_restore_outcome_witness :
  fst (PerformRestore Scenario.rsync_down "k123" Sample.connected) =
    Some "failed to apply restored data: exit status 1" /\
  (let e := "failed to apply restored data: exit status 1" in
   let m' := snd (PerformRestore Scenario.rsync_down "k123" Sample.connected) in
   (m' = Sample.connected /\
    RepositoryConnected (State (kopia Sample.connected)) = false /\
    e = "repository not connected") \/
   (kopia m' = kopia Sample.connected /\
    since Sample.connected m' = [PoolExists "local"] /\
    e = "local ZFS pool not found") \/
   (InProgress (State (kopia m')) = false /\
    ((Progress (State (kopia m')) = 20 /\
      exists cause,
        e = "failed to create safety snapshot: " ++ cause /\
        LastStatus (State (kopia m')) =
          "Failed to create safety snapshot: " ++ cause) \/
     (Progress (State (kopia m')) = 30 /\
      LastStatus (State (kopia m')) = "Failed to get pool mountpoint: " ++ e) \/
     (Progress (State (kopia m')) = 40 /\
      LastStatus (State (kopia m')) =
        "Failed to create temp restore path: " ++ e) \/
     (Progress (State (kopia m')) = 50 /\
      LastStatus (State (kopia m')) = "Failed to restore snapshot: " ++ e) \/
     (Progress (State (kopia m')) = 70 /\
      LastStatus (State (kopia m')) = "Failed to apply restored data: " ++ e)))).
Proof.
  split; [reflexivity|].
  apply (failed_restore_outcome Scenario.rsync_down "k123" Sample.connected
           "failed to apply restored data: exit status 1").
  reflexivity.
Defined.

(** A backup on the sample system moves the time of the last backup. *)
Lemma last_backup_moves_only_with_a_successful_backup_witness :
  LastBackup (State (kopia (run Sample.calm OpBackup Sample.connected))) <>
    LastBackup (State (kopia Sample.connected)) /\
  OpBackup = OpBackup /\
  fst (performBackup Sample.calm Sample.connected) = None.
Proof.
  assert (H : LastBackup (State (kopia (run Sample.calm OpBackup Sample.connected)))
              <> LastBackup (State (kopia Sample.connected))).
  { vm_compute. discriminate. }
  split; [exact H|].
  apply (last_backup_moves_only_with_a_successful_backup Sample.calm OpBackup
           Sample.connected H).
Defined.

(** The snapshot of the pool of the sample system. *)
Lemma snapshot_path_of_created_name_witness :
  count_at "local" = 0%nat /\
  (let snapshot := "kopia-" ++ Format_compact Sample.clock in
   let query := ["get"; "-H"; "-o"; "value"; "mountpoint"; "local"] in
   let (answer, m') :=
     getSnapshotPath Sample.calm
       ("local" ++ "@kopia-" ++ Format_compact Sample.clock) Sample.connected in
   kopia m' = kopia Sample.connected /\
   match subprocess_RunCommandContext Sample.calm
           (length (trace Sample.connected)) "zfs" query with
   | (_, Some e) =>
       answer = ("", Some ("failed to get mountpoint: " ++ e)) /\
       since Sample.connected m' = [RunCommand "zfs" query]
   | (output, None) =>
       let path :=
         filepath_Join Sample.calm
           [mountpoint_of Sample.calm "local" output; ".zfs"; "snapshot";
            snapshot] in
       since Sample.connected m' = [RunCommand "zfs" query; Stat path] /\
       answer =
         match os_Stat Sample.calm (length (trace Sample.connected) + 1) path with
         | Some e => ("", Some ("snapshot path does not exist: " ++ e))
         | None => (path, None)
         end
   end).
Proof.
  split; [reflexivity|].
  apply (snapshot_path_of_created_name Sample.calm "local" Sample.clock
           Sample.connected).
  reflexivity.
Defined.

(** The restore and the snapshot path on the sample system, where ZFS
    answers that the pool is mounted on /local. *)
Lemma mountpoint_on_sample :
  commands (since Sample.connected
              (snd (PerformRestore Sample.calm "k123" Sample.connected))) =
    [("zfs", ["snapshot";
              "local@before-restore-20240115-103000@kopia-20240115-103000"]);
     ("zfs", ["get"; "-H"; "-o"; "value"; "mountpoint"; "local"]);
     ("kopia", ["snapshot"; "restore"; "k123"; "/local/.kopia-restore-temp"]);
     ("rsync", ["-a"; "--delete"; "/local/.kopia-restore-temp/"; "/local/"])] /\
  fst (getSnapshotPath Sample.calm "local@kopia-20240115-103000"
         Sample.connected) =
    ("/local/.zfs/snapshot/kopia-20240115-103000", None).
Proof. vm_compute. split; reflexivity. Qed.
